(** * highmap-visualizer: heightmap readers, contour extraction and statistics

    A shallow embedding of [web_version/js/heightmap.js], of the contour,
    mesh-height and statistics part of [web_version/js/terrain-renderer.js],
    and of the stored configuration ([loadColorSchemes], [saveColorSchemes]).

    The code is read twice.  In the first reading JavaScript numbers are
    modelled by [num]: an exact rational or one of [Infinity], [-Infinity],
    [NaN]; rounding and the sign of zero are left out, everything else the
    arithmetic operators do on the special values is kept.  The second
    reading, the module [F64], is over the IEEE 754 doubles themselves, with
    the binary32 rounding of [Float32Array] stores; the properties that
    depend on rounding are stated there. *)

From Stdlib Require Import ZArith QArith Qcanon Qround List Bool String Lia Lqa.
From Stdlib.Strings Require Import Byte.
From Stdlib Require Floats.
Import ListNotations.

Local Open Scope Z_scope.

(** ** JavaScript numbers *)

Module JS.

Inductive num : Type :=
| Fin (q : Qc)
| PInf
| NInf
| NaN.

Definition ofZ (z : Z) : num := Fin (Q2Qc (inject_Z z)).

(** An infinity multiplied (or divided) by a finite number of sign [c]. *)
Definition signedInf (positive : bool) (c : comparison) : num :=
  match c with
  | Eq => NaN
  | Gt => if positive then PInf else NInf
  | Lt => if positive then NInf else PInf
  end.

Definition neg (a : num) : num :=
  match a with
  | Fin q => Fin (- q)%Qc
  | PInf => NInf
  | NInf => PInf
  | NaN => NaN
  end.

Definition add (a b : num) : num :=
  match a, b with
  | NaN, _ | _, NaN => NaN
  | Fin x, Fin y => Fin (x + y)%Qc
  | PInf, NInf | NInf, PInf => NaN
  | PInf, _ | _, PInf => PInf
  | NInf, _ | _, NInf => NInf
  end.

Definition sub (a b : num) : num := add a (neg b).

Definition mul (a b : num) : num :=
  match a, b with
  | NaN, _ | _, NaN => NaN
  | Fin x, Fin y => Fin (x * y)%Qc
  | Fin x, PInf | PInf, Fin x => signedInf true (x ?= 0)%Qc
  | Fin x, NInf | NInf, Fin x => signedInf false (x ?= 0)%Qc
  | PInf, PInf | NInf, NInf => PInf
  | PInf, NInf | NInf, PInf => NInf
  end.

(** Division; a zero divisor is taken as [+0]. *)
Definition div (a b : num) : num :=
  match a, b with
  | NaN, _ | _, NaN => NaN
  | Fin x, Fin y =>
      if Qc_eq_dec y 0 then
        match (x ?= 0)%Qc with
        | Eq => NaN
        | Gt => PInf
        | Lt => NInf
        end
      else Fin (x / y)%Qc
  | Fin _, (PInf | NInf) => Fin 0%Qc
  | PInf, Fin y => match (y ?= 0)%Qc with Lt => NInf | _ => PInf end
  | NInf, Fin y => match (y ?= 0)%Qc with Lt => PInf | _ => NInf end
  | (PInf | NInf), (PInf | NInf) => NaN
  end.

(** [a <= b]; false as soon as one side is [NaN]. *)
Definition le (a b : num) : bool :=
  match a, b with
  | NaN, _ | _, NaN => false
  | Fin x, Fin y => match (x ?= y)%Qc with Gt => false | _ => true end
  | NInf, _ | _, PInf => true
  | _, _ => false
  end.

(** [a < b]; false as soon as one side is [NaN]. *)
Definition lt (a b : num) : bool :=
  match a, b with
  | NaN, _ | _, NaN => false
  | Fin x, Fin y => match (x ?= y)%Qc with Lt => true | _ => false end
  | PInf, _ | _, NInf => false
  | _, _ => true
  end.

(** [a > b] *)
Definition gt (a b : num) : bool := lt b a.

(** [Math.min(a, b)] and [Math.max(a, b)] *)
Definition Math_min (a b : num) : num :=
  match a, b with
  | NaN, _ | _, NaN => NaN
  | _, _ => if le a b then a else b
  end.

Definition Math_max (a b : num) : num :=
  match a, b with
  | NaN, _ | _, NaN => NaN
  | _, _ => if le a b then b else a
  end.

(** [for (let i = 0; i < n; i++) body]: the loop counter takes the values
    [0], [1], ..., [n-1] in this order (none when [n <= 0]). *)
Definition counter (n : Z) : list Z :=
  map Z.of_nat (seq 0 (Z.to_nat n)).

Definition for_ {S : Type} (n : Z) (body : Z -> S -> S) (s : S) : S :=
  fold_left (fun acc i => body i acc) (counter n) s.

(** [array.push(v)] *)
Definition push {A : Type} (array : list A) (v : A) : list A := array ++ [v].

(** How a call ends: with a value (a resolved promise, a normal return) or
    with an [Error] carrying a message (a rejected promise, a throw). *)
Inductive completion (A : Type) : Type :=
| Normal (value : A)
| Throw (message : string).

Arguments Normal {A} value.
Arguments Throw {A} message.

End JS.

Import JS.

(** ** Data: the heightmap object, the map scale, the points of a line *)

(** [{ data, width, height }] as the three sources build it.  [data] is a
    [Float32Array]; the sources only store finite numbers in it. *)
Record Heightmap : Type := mkHeightmap {
  data : list Qc;
  width : Z;
  height : Z
}.

(** [mapScale]: [{ width_km, height_km, max_elevation_km }] *)
Record MapScale : Type := mkMapScale {
  width_km : Qc;
  height_km : Qc;
  max_elevation_km : Qc
}.

(** [THREE.Vector3] *)
Record Vector3 : Type := mkVector3 {
  vx : num;
  vy : num;
  vz : num
}.

(** [data[i]] used as a number: an index outside the array reads
    [undefined], which every use below multiplies by a number, giving [NaN]. *)
Definition getData (d : list Qc) (i : Z) : num :=
  if i <? 0 then NaN
  else match nth_error d (Z.to_nat i) with
       | Some q => Fin q
       | None => NaN
       end.

Definition half : Qc := Q2Qc (1 # 2).

(** ** terrain-renderer.js *)

Module TerrainRenderer.

(** The fields of the renderer that [addContours] and [getTerrainInfo] read
    or write.  [contourLevels] is an integer (the application passes the
    result of [parseInt]).  A line of [contours] is the point list its
    geometry was built from; materials and the scene graph are left out. *)
Record t : Type := mk {
  heightmap : option Heightmap;
  mapScale : MapScale;
  contourLevels : Z;
  resolution : Z;
  contours : option (list (list Vector3))
}.

(** The height range scan shared by [addContours] and [getTerrainInfo]:
    [minHeight] starts at [Infinity], [maxHeight] at [-Infinity]. *)
Definition minHeightOf (d : list Qc) : num :=
  fold_left (fun minHeight v => Math_min minHeight (Fin v)) d PInf.

Definition maxHeightOf (d : list Qc) : num :=
  fold_left (fun maxHeight v => Math_max maxHeight (Fin v)) d NInf.

(** Lines 190-193: the contour levels. *)
Definition contourLevelsOf (minHeight heightRange : num) (contourLevels : Z)
  : list num :=
  for_ contourLevels
    (fun i levels =>
       push levels
         (add minHeight (mul (div (ofZ i) (ofZ (contourLevels - 1))) heightRange)))
    [].

(** The test of lines 210-211 and 222-223 on an edge from [h0] to [h1]. *)
Definition crosses (h0 h1 scaledLevel : num) : bool :=
  (le h0 scaledLevel && gt h1 scaledLevel)
  || (gt h0 scaledLevel && le h1 scaledLevel).

(** The interpolation of lines 212 and 224. *)
Definition interpolate (h0 h1 scaledLevel : num) : num :=
  div (sub scaledLevel h0) (sub h1 h0).

(** Lines 215-219 and 227-231: the point pushed for grid position
    [(px, py)]. *)
Definition worldPoint (hm : Heightmap) (scale : MapScale)
  (px py scaledLevel : num) : Vector3 :=
  mkVector3
    (mul (sub (div px (ofZ (width hm))) (Fin half)) (Fin (width_km scale)))
    scaledLevel
    (mul (sub (div py (ofZ (height hm))) (Fin half)) (Fin (height_km scale))).

(** Lines 203-232: the body of the two nested loops at sample [(x, y)].
    ([h11], read on line 207, is never used and is left out.) *)
Definition scanSample (hm : Heightmap) (scale : MapScale) (scaledLevel : num)
  (x y : Z) (points : list Vector3) : list Vector3 :=
  let maxElevation := Fin (max_elevation_km scale) in
  let idx := y * width hm + x in
  let h00 := mul (getData (data hm) idx) maxElevation in
  let h10 := mul (getData (data hm) (idx + 1)) maxElevation in
  let h01 := mul (getData (data hm) (idx + width hm)) maxElevation in
  let points :=
    if crosses h00 h10 scaledLevel then
      let t := interpolate h00 h10 scaledLevel in
      let px := add (ofZ x) t in
      let py := ofZ y in
      push points (worldPoint hm scale px py scaledLevel)
    else points in
  let points :=
    if crosses h00 h01 scaledLevel then
      let t := interpolate h00 h01 scaledLevel in
      let px := ofZ x in
      let py := add (ofZ y) t in
      push points (worldPoint hm scale px py scaledLevel)
    else points in
  points.

(** Lines 197-234: the points collected for one level. *)
Definition contourPoints (hm : Heightmap) (scale : MapScale) (level : num)
  : list Vector3 :=
  let maxElevation := Fin (max_elevation_km scale) in
  let scaledLevel := mul level maxElevation in
  for_ (height hm - 1)
    (fun y points =>
       for_ (width hm - 1)
         (fun x points => scanSample hm scale scaledLevel x y points)
         points)
    [].

(** Lines 196-248: one line per level that collected more than one point. *)
Definition contourGroupOf (hm : Heightmap) (scale : MapScale)
  (levels : list num) : list (list Vector3) :=
  fold_left
    (fun contourGroup level =>
       let points := contourPoints hm scale level in
       if (1 <? Z.of_nat (List.length points)) then push contourGroup points
       else contourGroup)
    levels [].

(** Lines 186-193: the levels [addContours] iterates over, [None] when the
    guard [heightRange > 0] skips the whole block. *)
Definition plannedLevels (d : list Qc) (contourLevels : Z)
  : option (list num) :=
  let minHeight := minHeightOf d in
  let maxHeight := maxHeightOf d in
  let heightRange := sub maxHeight minHeight in
  if gt heightRange (ofZ 0) then
    Some (contourLevelsOf minHeight heightRange contourLevels)
  else None.

(** [this.contours = contourGroup] *)
Definition setContours (r : t) (contourGroup : list (list Vector3)) : t :=
  mk (heightmap r) (mapScale r) (contourLevels r) (resolution r)
     (Some contourGroup).

(** [addContours]: the early return of line 172, then the block guarded by
    [heightRange > 0].  No statement of the method throws. *)
Definition addContours (r : t) : completion t :=
  match heightmap r with
  | None => Normal r
  | Some hm =>
      if contourLevels r <=? 0 then Normal r
      else
        match plannedLevels (data hm) (contourLevels r) with
        | Some levels =>
            let contourGroup := contourGroupOf hm (mapScale r) levels in
            Normal (setContours r contourGroup)
        | None => Normal r
        end
  end.

(** The object [getTerrainInfo] returns. *)
Record TerrainInfo : Type := mkTerrainInfo {
  minElevation : num;
  maxElevation : num;
  elevationRange : num;
  mapWidth : Qc;
  mapHeight : Qc;
  infoResolution : Z
}.

(** [getTerrainInfo]; [None] is the [null] returned without a heightmap. *)
Definition getTerrainInfo (r : t) : option TerrainInfo :=
  match heightmap r with
  | None => None
  | Some hm =>
      let minHeight := minHeightOf (data hm) in
      let maxHeight := maxHeightOf (data hm) in
      let heightRange := sub maxHeight minHeight in
      let maxElevation := Fin (max_elevation_km (mapScale r)) in
      Some (mkTerrainInfo
              (mul (mul minHeight maxElevation) (ofZ 1000))
              (mul (mul maxHeight maxElevation) (ofZ 1000))
              (mul (mul heightRange maxElevation) (ofZ 1000))
              (width_km (mapScale r))
              (height_km (mapScale r))
              (resolution r))
  end.

End TerrainRenderer.

(** ** heightmap.js *)

(** [new Float32Array(n)]: [n] zeros.  (A negative length, which throws,
    does not arise: the readers pass a product of unsigned numbers.) *)
Definition Float32Array (n : Z) : list Qc := repeat (Q2Qc 0) (Z.to_nat n).

(** [array[i] = v] on a typed array: nothing happens outside the array. *)
Fixpoint setNth (array : list Qc) (i : nat) (v : Qc) : list Qc :=
  match array, i with
  | [], _ => []
  | _ :: rest, O => v :: rest
  | a :: rest, S j => a :: setNth rest j v
  end.

Definition setAt (array : list Qc) (i : Z) (v : Qc) : list Qc :=
  if i <? 0 then array else setNth array (Z.to_nat i) v.

Definition byteValue (b : byte) : Z := Z.of_N (Byte.to_N b).

(** [DataView] over an [ArrayBuffer], read little-endian. *)
Module DataView.

Definition byteLength (buffer : list byte) : Z := Z.of_nat (List.length buffer).

(** The message of the [RangeError] a read outside the buffer throws. *)
Definition RangeError : string := "Offset is outside the bounds of the DataView".

Definition getUint8 (buffer : list byte) (byteOffset : Z) : completion Z :=
  if byteOffset <? 0 then Throw RangeError
  else match nth_error buffer (Z.to_nat byteOffset) with
       | Some b => Normal (byteValue b)
       | None => Throw RangeError
       end.

Definition getUint16 (buffer : list byte) (byteOffset : Z) : completion Z :=
  match getUint8 buffer byteOffset, getUint8 buffer (byteOffset + 1) with
  | Normal b0, Normal b1 => Normal (b0 + b1 * 256)
  | _, _ => Throw RangeError
  end.

Definition getUint32 (buffer : list byte) (byteOffset : Z) : completion Z :=
  match getUint8 buffer byteOffset, getUint8 buffer (byteOffset + 1),
        getUint8 buffer (byteOffset + 2), getUint8 buffer (byteOffset + 3) with
  | Normal b0, Normal b1, Normal b2, Normal b3 =>
      Normal (b0 + b1 * 256 + b2 * 65536 + b3 * 16777216)
  | _, _, _, _ => Throw RangeError
  end.

End DataView.

(** [v / d] for integers [v] and [d <> 0]. *)
Definition ratio (v d : Z) : Qc := (Q2Qc (inject_Z v) / Q2Qc (inject_Z d))%Qc.

(** What [getImageData] hands to [readPngHeightmap]: RGBA bytes. *)
Record ImageData : Type := mkImageData {
  pixels : list byte;
  canvasWidth : Z;
  canvasHeight : Z
}.

(** Lines 64-67 of [readR16Heightmap]: the sample loop; a read outside the
    buffer throws and leaves the loop. *)
Definition readR16Samples (buffer : list byte) (n : Z) : completion (list Qc) :=
  for_ n
    (fun i acc =>
       match acc with
       | Throw e => Throw e
       | Normal heightmap =>
           match DataView.getUint16 buffer (8 + i * 2) with
           | Throw e => Throw e
           | Normal v => Normal (setAt heightmap i (ratio v 65535))
           end
       end)
    (Normal (Float32Array n)).

(** [readR16Heightmap], from the loaded [ArrayBuffer] on.  [Normal] is
    [resolve], [Throw] is [reject]. *)
Definition readR16Heightmap (buffer : list byte) : completion Heightmap :=
  let failed (e : string) : completion Heightmap :=
    Throw ("Failed to parse R16 file: " ++ e) in
  match DataView.getUint32 buffer 0 with
  | Throw e => failed e
  | Normal width =>
      match DataView.getUint32 buffer 4 with
      | Throw e => failed e
      | Normal height =>
          if negb (DataView.byteLength buffer =? 8 + width * height * 2)
          then Throw "Invalid R16 file size"
          else
            match readR16Samples buffer (width * height) with
            | Throw e => failed e
            | Normal heightmap => Normal (mkHeightmap heightmap width height)
            end
      end
  end.

(** *** The noise generator

    [Math.sin] is a library function of the engine; the noise takes it as a
    parameter.  All numbers of the generator are finite ([x / width] is only
    evaluated inside the loops, where [0 < width]), so it is written over
    the rationals directly. *)

Section Noise.

Variable Math_sin : Qc -> Qc.

Definition ofInt (z : Z) : Qc := Q2Qc (inject_Z z).

Definition Math_floor (q : Qc) : Z := Qfloor q.

Definition dot (g : Qc * Qc) (x y : Qc) : Qc := (fst g * x + snd g * y)%Qc.

Definition grad3 : list (Qc * Qc) :=
  [ (ofInt 1, ofInt 1); (ofInt (-1), ofInt 1);
    (ofInt 1, ofInt (-1)); (ofInt (-1), ofInt (-1));
    (ofInt 1, ofInt 0); (ofInt (-1), ofInt 0);
    (ofInt 0, ofInt 1); (ofInt 0, ofInt (-1)) ].

Definition getGradient (ix iy : Z) : Qc * Qc :=
  let random :=
    (Math_sin (ofInt ix * Q2Qc (129898 # 10000) + ofInt iy * Q2Qc (78233 # 1000))
     * Q2Qc (437585453 # 10000))%Qc in
  let index := Z.abs (Math_floor (random * ofInt 8)%Qc) mod 8 in
  nth (Z.to_nat index) grad3 (ofInt 0, ofInt 0).

Definition contribution (ix iy : Z) (x y : Qc) : Qc :=
  let g := getGradient ix iy in
  let dx := (x - ofInt ix)%Qc in
  let dy := (y - ofInt iy)%Qc in
  let t := (half - dx * dx - dy * dy)%Qc in
  if Qclt_le_dec t (ofInt 0) then ofInt 0
  else
    let t2 := (t * t)%Qc in
    let t4 := (t2 * t2)%Qc in
    (t4 * dot g dx dy)%Qc.

(** ([fx] and [fy], lines 161-162, are never used and are left out.) *)
Definition simplex2D (x y : Qc) : Qc :=
  let ix0 := Math_floor x in
  let iy0 := Math_floor y in
  let ix1 := ix0 + 1 in
  let iy1 := iy0 + 1 in
  let n00 := contribution ix0 iy0 x y in
  let n10 := contribution ix1 iy0 x y in
  let n01 := contribution ix0 iy1 x y in
  let n11 := contribution ix1 iy1 x y in
  ((n00 + n10 + n01 + n11) * ofInt 70)%Qc.

(** Lines 102-110: the six octaves; the state is
    [(value, amplitude, frequency)]. *)
Definition octaves (nx ny : Qc) : Qc :=
  let '(value, _, _) :=
    for_ 6
      (fun _ '(value, amplitude, frequency) =>
         ((value + amplitude * simplex2D (nx * frequency) (ny * frequency))%Qc,
          (amplitude * half)%Qc,
          (frequency * ofInt 2)%Qc))
      (ofInt 0, ofInt 1, ofInt 1) in
  value.

(** Lines 95-113: the sample stored at [(x, y)]. *)
Definition randomSample (width height x y : Z) : Qc :=
  let nx := (ofInt x / ofInt width - half)%Qc in
  let ny := (ofInt y / ofInt height - half)%Qc in
  let value := octaves nx ny in
  ((value + ofInt 1) * half)%Qc.

Definition generateRandomHeightmap (width height : Z) : Heightmap :=
  let heightmap :=
    for_ height
      (fun y heightmap =>
         for_ width
           (fun x heightmap =>
              let index := y * width + x in
              setAt heightmap index (randomSample width height x y))
           heightmap)
      (Float32Array (width * height)) in
  mkHeightmap heightmap width height.

End Noise.

(** ** The contract of the contour scan, in the words of the design

    Grid-fractional points, values and levels as plain rationals: what the
    scan of [addContours] is compared with. *)

Module Contract.

Definition Qcleb (a b : Qc) : bool :=
  match (a ?= b)%Qc with Gt => false | _ => true end.

Definition Qcltb (a b : Qc) : bool :=
  match (a ?= b)%Qc with Lt => true | _ => false end.

(** Row-major sample [(x, y)]. *)
Definition value (hm : Heightmap) (x y : Z) : Qc :=
  nth (Z.to_nat (y * width hm + x)) (data hm) (Q2Qc 0).

(** One endpoint [<= level], the other [> level]. *)
Definition crossing (v0 v1 level : Qc) : bool :=
  (Qcleb v0 level && Qcltb level v1) || (Qcleb v1 level && Qcltb level v0).

(** [t = (level - v0) / (v1 - v0)] *)
Definition fraction (v0 v1 level : Qc) : Qc :=
  ((level - v0) / (v1 - v0))%Qc.

(** The forward horizontal edge [(x,y)-(x+1,y)] of sample [(x, y)]. *)
Definition horizontalEdge (hm : Heightmap) (level : Qc) (x y : Z)
  : list (Qc * Qc) :=
  let v0 := value hm x y in
  let v1 := value hm (x + 1) y in
  if crossing v0 v1 level
  then [((ofInt x + fraction v0 v1 level)%Qc, ofInt y)]
  else [].

(** The forward vertical edge [(x,y)-(x,y+1)] of sample [(x, y)]. *)
Definition verticalEdge (hm : Heightmap) (level : Qc) (x y : Z)
  : list (Qc * Qc) :=
  let v0 := value hm x y in
  let v1 := value hm x (y + 1) in
  if crossing v0 v1 level
  then [(ofInt x, (ofInt y + fraction v0 v1 level)%Qc)]
  else [].

(** Row-major scan of the cells, two forward edges per sample. *)
Definition crossingPoints (hm : Heightmap) (level : Qc) : list (Qc * Qc) :=
  flat_map
    (fun y =>
       flat_map
         (fun x => horizontalEdge hm level x y ++ verticalEdge hm level x y)
         (counter (width hm - 1)))
    (counter (height hm - 1)).

(** The grid invariant of the data model. *)
Definition wellFormed (hm : Heightmap) : Prop :=
  Z.of_nat (List.length (data hm)) = width hm * height hm.

Definition inUnit (q : Qc) : Prop := (Q2Qc 0 <= q)%Qc /\ (q <= Q2Qc 1)%Qc.

(** The extrema of a grid, as the design speaks of them. *)
Definition isMinimum (d : list Qc) (m : Qc) : Prop :=
  In m d /\ forall v, In v d -> (m <= v)%Qc.

Definition isMaximum (d : list Qc) (m : Qc) : Prop :=
  In m d /\ forall v, In v d -> (v <= m)%Qc.

End Contract.

(** ** Concrete inputs *)

Definition qc (n : Z) (d : positive) : Qc := Q2Qc (n # d).

(** The default scale of the application: 10 km x 10 km, 5 km high. *)
Definition defaultScale : MapScale := mkMapScale (qc 10 1) (qc 10 1) (qc 5 1).

(** The 2x2 scenario grid, row-major [0.0, 1.0, 0.0, 1.0]. *)
Definition scenarioGrid : Heightmap :=
  mkHeightmap [qc 0 1; qc 1 1; qc 0 1; qc 1 1] 2 2.

(** The scene position [addContours] gives a grid-fractional point of the
    level [level]: lines 215-219 at finite arguments. *)
Definition gridToWorld (hm : Heightmap) (scale : MapScale) (level : Qc)
  (p : Qc * Qc) : Vector3 :=
  TerrainRenderer.worldPoint hm scale (Fin (fst p)) (Fin (snd p))
    (mul (Fin level) (Fin (max_elevation_km scale))).

(** Either no sample is above the scaled level, or none is at or below it. *)
Definition oneSided (hm : Heightmap) (scale : MapScale) (scaledLevel : num)
  : Prop :=
  (forall v, In v (data hm) ->
             gt (Fin (v * max_elevation_km scale)) scaledLevel = false)
  \/ (forall v, In v (data hm) ->
                le (Fin (v * max_elevation_km scale)) scaledLevel = false).

(** Lines 204-207: the scaled height read at index [i] of the grid. *)
Definition heightAt (hm : Heightmap) (scale : MapScale) (i : Z) : num :=
  mul (getData (data hm) i) (Fin (max_elevation_km scale)).

(** A renderer holding the grid [hm] under the scale [scale], with the
    constructor's parameters (20 contour levels, resolution 500). *)
Definition rendererOf (hm : Heightmap) (scale : MapScale) : TerrainRenderer.t :=
  TerrainRenderer.mk (Some hm) scale 20 500 None.

(** A grid whose values span [0.1, 0.9]. *)
Definition spanGrid : Heightmap :=
  mkHeightmap [qc 1 2; qc 1 10; qc 9 10; qc 3 10] 2 2.

(** A grid one sample wide whose two samples differ. *)
Definition narrowGrid : Heightmap := mkHeightmap [qc 0 1; qc 1 1] 1 2.

(** The 3x3 scenario grid, all samples 0.2. *)
Definition flatGrid : Heightmap := mkHeightmap (repeat (qc 1 5) 9) 3 3.

(** A renderer asked for no contour level at all. *)
Definition noLevelRenderer : TerrainRenderer.t :=
  TerrainRenderer.mk (Some scenarioGrid) defaultScale 0 500 None.

(** ** The raw 16-bit format, in the words of the design *)

Module R16.

Definition byteOf (buffer : list byte) (i : Z) : Z :=
  byteValue (nth (Z.to_nat i) buffer x00).

(** Unsigned 16-bit little-endian integer at byte offset [off]. *)
Definition u16le (buffer : list byte) (off : Z) : Z :=
  byteOf buffer off + 256 * byteOf buffer (off + 1).

(** Unsigned 32-bit little-endian integer at byte offset [off]. *)
Definition u32le (buffer : list byte) (off : Z) : Z :=
  byteOf buffer off + 256 * byteOf buffer (off + 1)
  + 65536 * byteOf buffer (off + 2) + 16777216 * byteOf buffer (off + 3).

(** Sample [i]: the 16-bit integer at offset [8 + i*2], over 65535. *)
Definition sample (buffer : list byte) (i : Z) : Qc :=
  ratio (u16le buffer (8 + i * 2)) 65535.

(** The grid a well-sized file decodes to. *)
Definition decoded (buffer : list byte) : Heightmap :=
  let w := u32le buffer 0 in
  let h := u32le buffer 4 in
  mkHeightmap (map (sample buffer) (counter (w * h))) w h.

End R16.

(** A 2x1 file with samples 65535 and 32768, the same file one byte short,
    and a file shorter than its header. *)
Definition r16File : list byte :=
  [x02; x00; x00; x00; x01; x00; x00; x00; xff; xff; x00; x80]%byte.

Definition r16Truncated : list byte :=
  [x02; x00; x00; x00; x01; x00; x00; x00; xff; xff; x00]%byte.

Definition r16NoHeader : list byte :=
  [x02; x00; x00; x00; x01; x00; x00]%byte.

(** The image data of a 2x1 image: a white pixel, then a mid-grey one. *)
Definition twoPixels : ImageData :=
  mkImageData [xff; xff; xff; xff; x80; x80; x80; xff]%byte 2 1.

(** Evenly spaced levels over [[mn, mx]], as the design writes them:
    [level(i) = mn + (i / (n - 1)) * (mx - mn)]. *)
Definition evenLevels (mn mx : Qc) (n : Z) : list num :=
  map (fun i => Fin (mn + ofInt i / ofInt (n - 1) * (mx - mn))%Qc) (counter n).


(** ** The mesh of [renderTerrain] *)

(** [array[i] = v] on a typed array of numbers: nothing happens outside the
    array. *)
Fixpoint setNthOf {A : Type} (array : list A) (i : nat) (v : A) : list A :=
  match array, i with
  | [], _ => []
  | _ :: rest, O => v :: rest
  | a :: rest, S j => a :: setNthOf rest j v
  end.

Definition setAtOf {A : Type} (array : list A) (i : Z) (v : A) : list A :=
  if i <? 0 then array else setNthOf array (Z.to_nat i) v.

(** Lines 127-138 of [renderTerrain]: the height written into every vertex.
    [vertices] is the position array of the plane geometry, three numbers
    per vertex.  The loop runs while [i < vertices.length / 3], that is
    [(length + 2) / 3] times (rounded down).  With [width = 0] the index
    [heightIndex] is [NaN] and the test of line 135 is false. *)
Definition setVertexHeights (hm : Heightmap) (scale : MapScale)
  (vertices : list num) : list num :=
  let maxElevation := Fin (max_elevation_km scale) in
  for_ ((Z.of_nat (List.length vertices) + 2) / 3)
    (fun i vertices =>
       if width hm =? 0 then vertices
       else
         let x := Z.rem i (width hm) in
         let y := i / width hm in
         let heightIndex := y * width hm + x in
         if heightIndex <? Z.of_nat (List.length (data hm)) then
           setAtOf vertices (i * 3 + 2)
             (mul (getData (data hm) heightIndex) maxElevation)
         else vertices)
    vertices.

(** A flat 2x2 plane: four vertices, all at height 0. *)
Definition flatPlane : list num :=
  [ofZ (-5); ofZ 5; ofZ 0;  ofZ 5; ofZ 5; ofZ 0;
   ofZ (-5); ofZ (-5); ofZ 0;  ofZ 5; ofZ (-5); ofZ 0].

(** ** The configuration module (colour schemes and map scale)

    [JSON.stringify], [JSON.parse] and the storage quota belong to the
    browser: they are parameters.  [JSON_parse] returns [None] where
    [JSON.parse] throws; [accepts] is false where [localStorage.setItem]
    throws. *)

Module Config.

(** The JSON values the configuration holds. *)
#[warnings="-register-all"] Inductive json : Type :=
| JNumber (q : Qc)
| JString (s : string)
| JObject (fields : list (string * json)).

Definition colorScheme
  (background primary secondary tertiary contour highlight_contour grid
     scan_line colormap : string) : json :=
  JObject
    [ ("background", JString background); ("primary", JString primary);
      ("secondary", JString secondary); ("tertiary", JString tertiary);
      ("contour", JString contour);
      ("highlight_contour", JString highlight_contour);
      ("grid", JString grid); ("scan_line", JString scan_line);
      ("colormap", JString colormap) ]%string.

Definition DEFAULT_COLOR_SCHEMES : json :=
  JObject
    [ ("cyberpunk",
       colorScheme "#000000" "#00FFFF" "#FF2E93" "#00FF85" "#00FFFF" "#FF2E93"
         "#00FFFF" "#00FFFF" "plasma");
      ("neon",
       colorScheme "#000000" "#7DF9FF" "#FF00FF" "#39FF14" "#7DF9FF" "#FF00FF"
         "#39FF14" "#7DF9FF" "viridis");
      ("holo",
       colorScheme "#000000" "#00BFFF" "#FF6347" "#FFD700" "#00BFFF" "#FF6347"
         "#FFD700" "#00BFFF" "inferno");
      ("military",
       colorScheme "#000000" "#00FF00" "#FF0000" "#FFFF00" "#00FF00" "#FF0000"
         "#FFFF00" "#00FF00" "cividis");
      ("alien",
       colorScheme "#000000" "#39FF14" "#9D00FF" "#FF7F00" "#39FF14" "#9D00FF"
         "#FF7F00" "#39FF14" "magma") ]%string.

Definition DEFAULT_MAP_SCALE : json :=
  JObject
    [ ("width_km", JNumber (Q2Qc 10)); ("height_km", JNumber (Q2Qc 10));
      ("max_elevation_km", JNumber (Q2Qc 5)) ]%string.

(** [localStorage]: [getItem] gives [null] ([None]) for a missing key. *)
Definition Storage : Type := string -> option string.

Definition getItem (storage : Storage) (key : string) : option string :=
  storage key.

Definition withItem (storage : Storage) (key value : string) : Storage :=
  fun k => if String.eqb k key then Some value else storage k.

Section Browser.

Variable JSON_stringify : json -> string.
Variable JSON_parse : string -> option json.
Variable accepts : Storage -> string -> string -> bool.

Definition setItem (storage : Storage) (key value : string)
  : completion Storage :=
  if accepts storage key value then Normal (withItem storage key value)
  else Throw "QuotaExceededError".

(** [if (stored) { try { value = JSON.parse(stored) } catch (e) { } }]: a
    missing item and the empty string are both false in the test. *)
Definition parsedOr (stored : option string) (value : json) : json :=
  match stored with
  | None => value
  | Some text =>
      if String.eqb text "" then value
      else match JSON_parse text with
           | Some parsed => parsed
           | None => value
           end
  end.

(** [loadColorSchemes]: the pair [{ colorSchemes, mapScale }]. *)
Definition loadColorSchemes (storage : Storage) : json * json :=
  let storedSchemes := getItem storage "colorSchemes" in
  let storedScale := getItem storage "mapScale" in
  let colorSchemes := DEFAULT_COLOR_SCHEMES in
  let mapScale := DEFAULT_MAP_SCALE in
  let colorSchemes := parsedOr storedSchemes colorSchemes in
  let mapScale := parsedOr storedScale mapScale in
  (colorSchemes, mapScale).

(** [saveColorSchemes]: the storage afterwards and the boolean returned. *)
Definition saveColorSchemes (storage : Storage) (colorSchemes mapScale : json)
  : Storage * bool :=
  match setItem storage "colorSchemes" (JSON_stringify colorSchemes) with
  | Throw _ => (storage, false)
  | Normal storage1 =>
      match setItem storage1 "mapScale" (JSON_stringify mapScale) with
      | Throw _ => (storage1, false)
      | Normal storage2 => (storage2, true)
      end
  end.

End Browser.

(** A toy browser for the examples: strings are stored as they are, every
    text parses as a string, and the storage takes everything but a text
    starting with ["!"]. *)
Definition toyStringify (v : json) : string :=
  match v with
  | JString s => s
  | _ => "{}"
  end.

Definition toyParse (text : string) : option json := Some (JString text).

Definition toyAccepts (_ : Storage) (_ value : string) : bool :=
  negb (String.prefix "!" value).

Definition emptyStorage : Storage := fun _ => None.

End Config.

(** An R16 file that is only a header: width 0, height 3. *)
Definition r16HeaderOnly : list byte :=
  [x00; x00; x00; x00; x03; x00; x00; x00]%byte.

(** ** Rounding to the nearest double

    The arithmetic behind the rounding of a product of two doubles: it is
    what shows that a multiplication by the scale keeps the order of the
    heights. *)

Module Round.





End Round.

(** ** The same code over binary64

    Where a property depends on rounding, the code is read over the IEEE 754
    doubles of the engine: [float] with its primitive operations, and
    [fround] for what a [Float32Array] slot holds after a store.  Indices,
    sizes and loop counters stay in [Z]. *)

Module F64.

Import PrimFloat SpecFloat FloatOps.

(** The double equal to a binary float given with a short mantissa. *)
Definition ofSF (f : spec_float) : float :=
  match f with
  | S754_finite s m e =>
      SF2Prim (binary_normalize prec emax (cond_Zopp s (Zpos m)) e s)
  | _ => SF2Prim f
  end.

(** An integer used as a number (exact up to [2^53]). *)
Definition ofZ (z : Z) : float :=
  SF2Prim (binary_normalize prec emax z 0 false).

(** [Math.fround]: rounding to the nearest binary32, ties to even.  It is
    the conversion a store into a [Float32Array] applies. *)
Definition fround (x : float) : float :=
  match Prim2SF x with
  | S754_finite s m e =>
      ofSF (binary_normalize 24 128 (cond_Zopp s (Zpos m)) e s)
  | _ => x
  end.

(** The rational a finite double stands for. *)
Definition toQ (x : float) : option Q :=
  match Prim2SF x with
  | S754_zero _ => Some 0%Q
  | S754_finite s m e =>
      Some (inject_Z (cond_Zopp s (Zpos m)) * Qpower 2 e)%Q
  | _ => None
  end.

(** [NaN], the one number that compares with nothing. *)
Definition isNaN (x : float) : Prop := Prim2SF x = S754_nan.

(** [Math.min] and [Math.max]: [NaN] as soon as one argument is, and
    [-0] below [+0]. *)
Definition Math_min (a b : float) : float :=
  if is_nan a || is_nan b then nan
  else if (a <? b)%float then a
  else if (b <? a)%float then b
  else if get_sign a then a else b.

Definition Math_max (a b : float) : float :=
  if is_nan a || is_nan b then nan
  else if (a <? b)%float then b
  else if (b <? a)%float then a
  else if get_sign a then b else a.

(** [{ data, width, height }], [data] being a [Float32Array]. *)
Record Heightmap : Type := mkHeightmap {
  data : list float;
  width : Z;
  height : Z
}.

Record MapScale : Type := mkMapScale {
  width_km : float;
  height_km : float;
  max_elevation_km : float
}.

Record Vector3 : Type := mkVector3 {
  vx : float;
  vy : float;
  vz : float
}.

(** [data[i]] used as a number: outside the array the read is [undefined],
    which the multiplication that follows turns into [NaN]. *)
Definition getData (d : list float) (i : Z) : float :=
  if i <? 0 then nan else nth (Z.to_nat i) d nan.

(** *** terrain-renderer.js *)

(** Lines 178-184: the height range scan, from [Infinity] down and from
    [-Infinity] up. *)
Definition minHeightOf (d : list float) : float :=
  fold_left (fun minHeight v => Math_min minHeight v) d infinity.

Definition maxHeightOf (d : list float) : float :=
  fold_left (fun maxHeight v => Math_max maxHeight v) d neg_infinity.

(** Lines 190-193. *)
Definition contourLevelsOf (minHeight heightRange : float) (contourLevels : Z)
  : list float :=
  for_ contourLevels
    (fun i levels =>
       push levels
         (minHeight + (ofZ i / ofZ (contourLevels - 1)) * heightRange)%float)
    [].

(** Lines 186-193; [None] when the guard [heightRange > 0] fails. *)
Definition plannedLevels (d : list float) (contourLevels : Z)
  : option (list float) :=
  let minHeight := minHeightOf d in
  let maxHeight := maxHeightOf d in
  let heightRange := (maxHeight - minHeight)%float in
  if (0 <? heightRange)%float then
    Some (contourLevelsOf minHeight heightRange contourLevels)
  else None.

(** Lines 210-211 and 222-223. *)
Definition crosses (h0 h1 scaledLevel : float) : bool :=
  ((h0 <=? scaledLevel)%float && (scaledLevel <? h1)%float)
  || ((scaledLevel <? h0)%float && (h1 <=? scaledLevel)%float).

(** Lines 212 and 224. *)
Definition interpolate (h0 h1 scaledLevel : float) : float :=
  ((scaledLevel - h0) / (h1 - h0))%float.

(** Lines 215-219 and 227-231. *)
Definition worldPoint (hm : Heightmap) (scale : MapScale)
  (px py scaledLevel : float) : Vector3 :=
  mkVector3
    ((px / ofZ (width hm) - 0.5) * width_km scale)%float
    scaledLevel
    ((py / ofZ (height hm) - 0.5) * height_km scale)%float.

(** Lines 203-232, the body of the two loops at sample [(x, y)].  ([h11],
    read on line 207, is never used and is left out.) *)
Definition scanSample (hm : Heightmap) (scale : MapScale) (scaledLevel : float)
  (x y : Z) (points : list Vector3) : list Vector3 :=
  let maxElevation := max_elevation_km scale in
  let idx := y * width hm + x in
  let h00 := (getData (data hm) idx * maxElevation)%float in
  let h10 := (getData (data hm) (idx + 1) * maxElevation)%float in
  let h01 := (getData (data hm) (idx + width hm) * maxElevation)%float in
  let points :=
    if crosses h00 h10 scaledLevel then
      let t := interpolate h00 h10 scaledLevel in
      let px := (ofZ x + t)%float in
      let py := ofZ y in
      push points (worldPoint hm scale px py scaledLevel)
    else points in
  let points :=
    if crosses h00 h01 scaledLevel then
      let t := interpolate h00 h01 scaledLevel in
      let px := ofZ x in
      let py := (ofZ y + t)%float in
      push points (worldPoint hm scale px py scaledLevel)
    else points in
  points.

(** Lines 197-234: the points collected for one level. *)
Definition contourPoints (hm : Heightmap) (scale : MapScale) (level : float)
  : list Vector3 :=
  let maxElevation := max_elevation_km scale in
  let scaledLevel := (level * maxElevation)%float in
  for_ (height hm - 1)
    (fun y points =>
       for_ (width hm - 1)
         (fun x points => scanSample hm scale scaledLevel x y points)
         points)
    [].

(** *** heightmap.js *)

(** [new Float32Array(n)]: [n] zeros; a negative length throws. *)
Definition Float32Array (n : Z) : completion (list float) :=
  if n <? 0 then Throw "Invalid typed array length"
  else Normal (repeat zero (Z.to_nat n)).

(** [array[i] = v] on a [Float32Array]: the slot takes [v] rounded to
    binary32; nothing happens outside the array. *)
Definition setAt (array : list float) (i : Z) (v : float) : list float :=
  setAtOf array i (fround v).

(** [imageData.data[i]] used as a number ([undefined] outside the array). *)
Definition pixelByte (imageData : ImageData) (i : Z) : float :=
  if i <? 0 then nan
  else match nth_error (pixels imageData) (Z.to_nat i) with
       | Some b => ofZ (byteValue b)
       | None => nan
       end.

(** [readPngHeightmap], from the decoded image on. *)
Definition readPngHeightmap (imageData : ImageData) : completion Heightmap :=
  let n := canvasWidth imageData * canvasHeight imageData in
  match Float32Array n with
  | Throw e => Throw e
  | Normal heightmap =>
      let heightmap :=
        for_ n
          (fun i heightmap =>
             setAt heightmap i (pixelByte imageData (i * 4) / ofZ 255)%float)
          heightmap in
      Normal (mkHeightmap heightmap (canvasWidth imageData)
                (canvasHeight imageData))
  end.

(** Lines 64-67 of [readR16Heightmap]. *)
Definition readR16Samples (buffer : list byte) (heightmap : list float) (n : Z)
  : completion (list float) :=
  for_ n
    (fun i acc =>
       match acc with
       | Throw e => Throw e
       | Normal heightmap =>
           match DataView.getUint16 buffer (8 + i * 2) with
           | Throw e => Throw e
           | Normal v => Normal (setAt heightmap i (ofZ v / ofZ 65535)%float)
           end
       end)
    (Normal heightmap).

(** [readR16Heightmap], from the loaded [ArrayBuffer] on.  The size test
    is written over [Z]: a buffer holds fewer than [2^53] bytes, below
    [2^53] the double arithmetic of [8 + width * height * 2] is exact, and
    from [2^53] on it gives a double that no byte length equals. *)
Definition readR16Heightmap (buffer : list byte) : completion Heightmap :=
  let failed (e : string) : completion Heightmap :=
    Throw ("Failed to parse R16 file: " ++ e) in
  match DataView.getUint32 buffer 0 with
  | Throw e => failed e
  | Normal width =>
      match DataView.getUint32 buffer 4 with
      | Throw e => failed e
      | Normal height =>
          if negb (DataView.byteLength buffer =? 8 + width * height * 2)
          then Throw "Invalid R16 file size"
          else
            match Float32Array (width * height) with
            | Throw e => failed e
            | Normal heightmap =>
                match readR16Samples buffer heightmap (width * height) with
                | Throw e => failed e
                | Normal heightmap =>
                    Normal (mkHeightmap heightmap width height)
                end
            end
      end
  end.

(** *** The contracts, in the words of the design *)

(** Row-major sample [(x, y)]; outside the data there is no number. *)
Definition value (hm : Heightmap) (x y : Z) : float :=
  nth (Z.to_nat (y * width hm + x)) (data hm) nan.

(** The height of sample [(x, y)] under the scale. *)
Definition scaledValue (hm : Heightmap) (scale : MapScale) (x y : Z) : float :=
  (value hm x y * max_elevation_km scale)%float.

(** One endpoint [<= level], the other [> level]. *)
Definition crossing (v0 v1 level : float) : bool :=
  ((v0 <=? level)%float && (level <? v1)%float)
  || ((v1 <=? level)%float && (level <? v0)%float).

(** [t = (level - v0) / (v1 - v0)] *)
Definition fraction (v0 v1 level : float) : float :=
  ((level - v0) / (v1 - v0))%float.

Section Edges.

(** The values the edges are tested on, and the level they are tested
    against. *)
Variable v : Z -> Z -> float.
Variable level : float.

(** The forward horizontal edge [(x,y)-(x+1,y)] of sample [(x, y)]. *)
Definition horizontalEdge (x y : Z) : list (float * float) :=
  if crossing (v x y) (v (x + 1) y) level
  then [((ofZ x + fraction (v x y) (v (x + 1) y) level)%float, ofZ y)]
  else [].

(** The forward vertical edge [(x,y)-(x,y+1)] of sample [(x, y)]. *)
Definition verticalEdge (x y : Z) : list (float * float) :=
  if crossing (v x y) (v x (y + 1)) level
  then [(ofZ x, (ofZ y + fraction (v x y) (v x (y + 1)) level)%float)]
  else [].

(** Row-major scan of a [w] x [h] grid, two forward edges per sample. *)
Definition crossingPoints (w h : Z) : list (float * float) :=
  flat_map
    (fun y =>
       flat_map (fun x => horizontalEdge x y ++ verticalEdge x y)
         (counter (w - 1)))
    (counter (h - 1)).

End Edges.

(** The scene position of a grid-fractional point. *)
Definition gridToWorld (hm : Heightmap) (scale : MapScale) (scaledLevel : float)
  (p : float * float) : Vector3 :=
  worldPoint hm scale (fst p) (snd p) scaledLevel.

(** A number of [[0, 1]]. *)
Definition inUnit (x : float) : bool := ((0 <=? x) && (x <=? 1))%float.

(** The raw 16-bit format: sample [i] is the 16-bit integer at offset
    [8 + i*2] over 65535, as a binary32. *)
Definition sample16 (buffer : list byte) (i : Z) : float :=
  fround (ofZ (R16.u16le buffer (8 + i * 2)) / ofZ 65535)%float.

Definition decoded (buffer : list byte) : Heightmap :=
  let w := R16.u32le buffer 0 in
  let h := R16.u32le buffer 4 in
  mkHeightmap (map (sample16 buffer) (counter (w * h))) w h.

(** The 8-bit raster format: the red-channel byte of pixel [i] over 255, as
    a binary32. *)
Definition redSample (imageData : ImageData) (i : Z) : float :=
  fround (ofZ (byteValue (nth (Z.to_nat (i * 4)) (pixels imageData) x00))
          / ofZ 255)%float.

(** *** Concrete inputs *)

(** The default scale of the application: 10 km x 10 km, 5 km high. *)
Definition defaultScale : MapScale := mkMapScale 10 10 5.

(** The 2x2 scenario grid, row-major [0.0, 1.0, 0.0, 1.0]. *)
Definition scenarioGrid : Heightmap := mkHeightmap [0; 1; 0; 1]%float 2 2.

(** A scale whose maximal elevation is 0.33 km. *)
Definition lowScale : MapScale := mkMapScale 10 10 0x1.51eb851eb851fp-2.

(** A scale whose maximal elevation is 3.3 km. *)
Definition steepScale : MapScale := mkMapScale 10 10 0x1.a666666666666p+1.

(** A 2x2 grid with the values 0.75 and 1, and the double just below
    0.75. *)
Definition shelfGrid : Heightmap :=
  mkHeightmap [0.75; 1; 0.75; 1]%float 2 2.

Definition belowShelf : float := 0x1.7ffffffffffffp-1.

End F64.

(** A 2x2 R16 file with the samples 51, 87, 87 and 0. *)
Definition r16Terrace : list byte :=
  [x02; x00; x00; x00; x02; x00; x00; x00;
   x33; x00; x57; x00; x57; x00; x00; x00]%byte.

(** * Proofs *)

(** ** Rationals *)


Lemma Qccompare_antisym (a b : Qc) : (b ?= a)%Qc = CompOpp (a ?= b)%Qc.
Proof. unfold Qccompare. now rewrite <- Qcompare_antisym. Qed.


Lemma Qcleb_le (a b : Qc) : Contract.Qcleb a b = true <-> (a <= b)%Qc.
Proof.
  unfold Contract.Qcleb. rewrite Qcle_alt.
  destruct (a ?= b)%Qc; split; intros; (easy || congruence).
Qed.

Lemma Qcltb_lt (a b : Qc) : Contract.Qcltb a b = true <-> (a < b)%Qc.
Proof.
  unfold Contract.Qcltb. rewrite Qclt_alt.
  destruct (a ?= b)%Qc; split; intros; (easy || congruence).
Qed.

Lemma Qcleb_false (a b : Qc) : Contract.Qcleb a b = false <-> (b < a)%Qc.
Proof.
  unfold Contract.Qcleb.
  split.
  - destruct (a ?= b)%Qc eqn:E; try discriminate. intros _. now apply Qcgt_alt.
  - intros H. apply Qcgt_alt in H. now rewrite H.
Qed.

Lemma Qcltb_false (a b : Qc) : Contract.Qcltb a b = false <-> (b <= a)%Qc.
Proof.
  unfold Contract.Qcltb. rewrite Qcle_alt, (Qccompare_antisym a b).
  destruct (a ?= b)%Qc; simpl; split; intros; (easy || congruence).
Qed.


(** ** Comparisons and arithmetic of [num] on finite numbers *)

Lemma le_Fin (a b : Qc) : le (Fin a) (Fin b) = Contract.Qcleb a b.
Proof. reflexivity. Qed.

Lemma gt_Fin (a b : Qc) : gt (Fin a) (Fin b) = Contract.Qcltb b a.
Proof. reflexivity. Qed.

Lemma sub_Fin (a b : Qc) : sub (Fin a) (Fin b) = Fin (a - b)%Qc.
Proof. reflexivity. Qed.

Lemma div_Fin (a b : Qc) : b <> Q2Qc 0 -> div (Fin a) (Fin b) = Fin (a / b)%Qc.
Proof.
  intros Hb. simpl. destruct (Qc_eq_dec b 0) as [E | _]; [contradiction | reflexivity].
Qed.

(** ** Loops *)

Lemma In_counter (n i : Z) : In i (counter n) <-> 0 <= i < n.
Proof.
  unfold counter. rewrite in_map_iff. split.
  - intros [k [<- Hk]]. apply in_seq in Hk. lia.
  - intros Hi. exists (Z.to_nat i). split; [lia | apply in_seq; lia].
Qed.

Lemma counter_nonpos (n : Z) : n <= 0 -> counter n = [].
Proof.
  intros Hn. unfold counter. now replace (Z.to_nat n) with O by lia.
Qed.

Lemma counter_length (n : Z) : List.length (counter n) = Z.to_nat n.
Proof. unfold counter. now rewrite length_map, length_seq. Qed.

Lemma counter_succ (n : Z) : 0 <= n -> counter (n + 1) = counter n ++ [n].
Proof.
  intros Hn. unfold counter.
  replace (Z.to_nat (n + 1)) with (S (Z.to_nat n)) by lia.
  rewrite seq_S, map_app. simpl. f_equal. f_equal. lia.
Qed.

(** A loop whose body only pushes onto an array collects, in order, what
    each round pushes. *)
Lemma fold_left_pushes {A B : Type} (body : A -> list B -> list B)
  (emitted : A -> list B) (l : list A) (acc : list B) :
  (forall i acc', In i l -> body i acc' = acc' ++ emitted i) ->
  fold_left (fun acc' i => body i acc') l acc = acc ++ flat_map emitted l.
Proof.
  revert acc. induction l as [| i l IH]; intros acc Hbody; simpl.
  - now rewrite app_nil_r.
  - rewrite IH by (intros; apply Hbody; now right).
    rewrite Hbody by now left.
    now rewrite <- app_assoc.
Qed.

Lemma for_pushes {B : Type} (n : Z) (body : Z -> list B -> list B)
  (emitted : Z -> list B) (acc : list B) :
  (forall i acc', 0 <= i < n -> body i acc' = acc' ++ emitted i) ->
  for_ n body acc = acc ++ flat_map emitted (counter n).
Proof.
  intros Hbody. unfold for_. apply fold_left_pushes.
  intros i acc' Hi. apply Hbody. now apply In_counter.
Qed.

Lemma map_flat_map {A B C : Type} (g : B -> C) (f : A -> list B) (l : list A) :
  map g (flat_map f l) = flat_map (fun a => map g (f a)) l.
Proof.
  induction l as [| a l IH]; simpl; [reflexivity |].
  now rewrite map_app, IH.
Qed.

Lemma flat_map_single {A B : Type} (f : A -> B) (l : list A) :
  flat_map (fun a => [f a]) l = map f l.
Proof.
  induction l as [| a l IH]; simpl; [reflexivity | now rewrite IH].
Qed.

Lemma flat_map_nil {A B : Type} (f : A -> list B) (l : list A) :
  (forall a, In a l -> f a = []) -> flat_map f l = [].
Proof.
  induction l as [| a l IH]; intros H; simpl; [reflexivity |].
  rewrite (H a) by now left. apply IH. intros; apply H; now right.
Qed.

(** ** Reading the grid *)

Lemma getData_in_range (d : list Qc) (i : Z) :
  0 <= i < Z.of_nat (List.length d) ->
  getData d i = Fin (nth (Z.to_nat i) d (Q2Qc 0)).
Proof.
  intros Hi. unfold getData.
  destruct (Z.ltb_spec i 0) as [Hneg | _]; [lia |].
  destruct (nth_error d (Z.to_nat i)) as [q |] eqn:E.
  - now rewrite (nth_error_nth _ _ _ E).
  - apply nth_error_None in E. lia.
Qed.


(** ** The edge test and the interpolation under a positive scale *)

Section Scaled.

Variable m : Qc.
Hypothesis m_pos : (0 < m)%Qc.



End Scaled.

(** ** The scan of one level *)

Section Scan.

Variable hm : Heightmap.
Variable scale : MapScale.
Variable level : Qc.

Hypothesis grid_ok : Contract.wellFormed hm.
Hypothesis scale_pos : (0 < max_elevation_km scale)%Qc.

Let scaledLevel : num := mul (Fin level) (Fin (max_elevation_km scale)).




End Scan.

Ltac qc_eq := apply Qc_is_canon; vm_compute; reflexivity.
Ltac qc_struct := vm_compute; repeat (f_equal; try qc_eq).

(** ** Order of [num] *)

(** Order facts over [Qc] are settled over [Q]. *)
Ltac qc_order :=
  unfold Qcle, Qclt, Qcmult, Qcplus, Qcminus, Qcopp, Q2Qc in *;
  cbn [this] in *; rewrite ?Qred_correct in *; (lra || nra).

Lemma Qcle_mult_nonneg (a b m : Qc) :
  (0 <= m)%Qc -> (a <= b)%Qc -> (a * m <= b * m)%Qc.
Proof. intros Hm Hab. qc_order. Qed.

Lemma gt_NaN_l (a : num) : gt NaN a = false.
Proof. now destruct a. Qed.


(** ** The height range scan *)

Lemma Math_max_Fin (x w : Qc) :
  Math_max (Fin x) (Fin w) = if Contract.Qcleb x w then Fin w else Fin x.
Proof. reflexivity. Qed.

Lemma Math_min_Fin (x w : Qc) :
  Math_min (Fin x) (Fin w) = if Contract.Qcleb x w then Fin x else Fin w.
Proof. reflexivity. Qed.

Lemma Math_max_upper (a : num) (w : Qc) :
  a <> NaN ->
  Math_max a (Fin w) <> NaN
  /\ le (Fin w) (Math_max a (Fin w)) = true
  /\ (forall v, le (Fin v) a = true -> le (Fin v) (Math_max a (Fin w)) = true).
Proof.
  intros Ha. destruct a as [x | | |]; try easy.
  - rewrite Math_max_Fin. destruct (Contract.Qcleb x w) eqn:E.
    + apply Qcleb_le in E. repeat split; try easy.
      * apply Qcleb_le, Qcle_refl.
      * intros v. rewrite !le_Fin, !Qcleb_le. intros Hv.
        now apply Qcle_trans with x.
    + apply Qcleb_false in E. repeat split; try easy.
      rewrite le_Fin. now apply Qcleb_le, Qclt_le_weak.
  - repeat split; try easy. change (Math_max NInf (Fin w)) with (Fin w).
    apply Qcleb_le, Qcle_refl.
Qed.

Lemma Math_min_lower (a : num) (w : Qc) :
  a <> NaN ->
  Math_min a (Fin w) <> NaN
  /\ le (Math_min a (Fin w)) (Fin w) = true
  /\ (forall v, le a (Fin v) = true -> le (Math_min a (Fin w)) (Fin v) = true).
Proof.
  intros Ha. destruct a as [x | | |]; try easy.
  - rewrite Math_min_Fin. destruct (Contract.Qcleb x w) eqn:E.
    + repeat split; try easy.
    + apply Qcleb_false in E. repeat split; try easy.
      * apply Qcleb_le, Qcle_refl.
      * intros v. rewrite !le_Fin, !Qcleb_le. intros Hv.
        apply Qcle_trans with x; [now apply Qclt_le_weak | exact Hv].
  - repeat split; try easy. change (Math_min PInf (Fin w)) with (Fin w).
    apply Qcleb_le, Qcle_refl.
Qed.

Lemma fold_max_upper (d : list Qc) (a : num) (v : Qc) :
  a <> NaN ->
  le (Fin v) a = true \/ In v d ->
  le (Fin v) (fold_left (fun maxHeight w => Math_max maxHeight (Fin w)) d a) = true.
Proof.
  revert a. induction d as [| w d IH]; intros a Ha Hv; simpl.
  - now destruct Hv.
  - destruct (Math_max_upper a w Ha) as [Hn [Hw Hmono]].
    apply IH; [exact Hn |].
    destruct Hv as [Hv | [<- | Hv]]; [left; now apply Hmono | now left | now right].
Qed.

Lemma fold_min_lower (d : list Qc) (a : num) (v : Qc) :
  a <> NaN ->
  le a (Fin v) = true \/ In v d ->
  le (fold_left (fun minHeight w => Math_min minHeight (Fin w)) d a) (Fin v) = true.
Proof.
  revert a. induction d as [| w d IH]; intros a Ha Hv; simpl.
  - now destruct Hv.
  - destruct (Math_min_lower a w Ha) as [Hn [Hw Hmono]].
    apply IH; [exact Hn |].
    destruct Hv as [Hv | [<- | Hv]]; [left; now apply Hmono | now left | now right].
Qed.

Lemma maxHeightOf_upper (d : list Qc) (v : Qc) :
  In v d -> le (Fin v) (TerrainRenderer.maxHeightOf d) = true.
Proof. intros Hv. apply fold_max_upper; [easy | now right]. Qed.

Lemma minHeightOf_lower (d : list Qc) (v : Qc) :
  In v d -> le (TerrainRenderer.minHeightOf d) (Fin v) = true.
Proof. intros Hv. apply fold_min_lower; [easy | now right]. Qed.

Lemma fold_max_attained (d : list Qc) (a : Qc) :
  exists mx,
    fold_left (fun maxHeight w => Math_max maxHeight (Fin w)) d (Fin a) = Fin mx
    /\ (mx = a \/ In mx d).
Proof.
  revert a. induction d as [| w d IH]; intros a; cbn [fold_left].
  - exists a. now split; [| left].
  - rewrite Math_max_Fin.
    destruct (Contract.Qcleb a w);
      [destruct (IH w) as [mx [E H]] | destruct (IH a) as [mx [E H]]];
      exists mx; (split; [exact E |]); simpl; intuition congruence.
Qed.

Lemma fold_min_attained (d : list Qc) (a : Qc) :
  exists mn,
    fold_left (fun minHeight w => Math_min minHeight (Fin w)) d (Fin a) = Fin mn
    /\ (mn = a \/ In mn d).
Proof.
  revert a. induction d as [| w d IH]; intros a; cbn [fold_left].
  - exists a. now split; [| left].
  - rewrite Math_min_Fin.
    destruct (Contract.Qcleb a w);
      [destruct (IH a) as [mn [E H]] | destruct (IH w) as [mn [E H]]];
      exists mn; (split; [exact E |]); simpl; intuition congruence.
Qed.

(** On a grid with at least one sample the scan ends with the least and the
    greatest sample. *)
Lemma maxHeightOf_maximum (d : list Qc) :
  d <> [] ->
  exists mx, TerrainRenderer.maxHeightOf d = Fin mx /\ Contract.isMaximum d mx.
Proof.
  intros Hd. destruct d as [| w d]; [contradiction |].
  destruct (fold_max_attained d w) as [mx [E H]].
  assert (Emax : TerrainRenderer.maxHeightOf (w :: d) = Fin mx) by exact E.
  exists mx. split; [exact Emax |]. split.
  - simpl. destruct H; [left; congruence | now right].
  - intros v Hv. apply Qcleb_le. rewrite <- le_Fin, <- Emax.
    now apply maxHeightOf_upper.
Qed.

Lemma minHeightOf_minimum (d : list Qc) :
  d <> [] ->
  exists mn, TerrainRenderer.minHeightOf d = Fin mn /\ Contract.isMinimum d mn.
Proof.
  intros Hd. destruct d as [| w d]; [contradiction |].
  destruct (fold_min_attained d w) as [mn [E H]].
  assert (Emin : TerrainRenderer.minHeightOf (w :: d) = Fin mn) by exact E.
  exists mn. split; [exact Emin |]. split.
  - simpl. destruct H; [left; congruence | now right].
  - intros v Hv. apply Qcleb_le. rewrite <- le_Fin, <- Emin.
    now apply minHeightOf_lower.
Qed.

(** ** Levels that no edge crosses *)

Lemma for_unchanged {S : Type} (n : Z) (body : Z -> S -> S) (s : S) :
  (forall i acc, body i acc = acc) -> for_ n body s = s.
Proof.
  intros Hbody. unfold for_.
  induction (counter n) as [| i l IH]; simpl; [reflexivity |].
  now rewrite Hbody.
Qed.

Lemma getData_cases (d : list Qc) (i : Z) :
  getData d i = NaN \/ exists v, In v d /\ getData d i = Fin v.
Proof.
  unfold getData. destruct (i <? 0); [now left |].
  destruct (nth_error d (Z.to_nat i)) as [q |] eqn:E; [right | now left].
  exists q. split; [now apply nth_error_In in E | reflexivity].
Qed.

Section NoCrossing.

Variable hm : Heightmap.
Variable scale : MapScale.
Variable scaledLevel : num.

Let h (i : Z) : num := mul (getData (data hm) i) (Fin (max_elevation_km scale)).

Lemma oneSided_heights :
  oneSided hm scale scaledLevel ->
  (forall i, gt (h i) scaledLevel = false)
  \/ (forall i, le (h i) scaledLevel = false).
Proof.
  intros [H | H]; [left | right]; intros i; unfold h;
    destruct (getData_cases (data hm) i) as [-> | [v [Hv ->]]];
    try (now apply H).
  - apply gt_NaN_l.
  - reflexivity.
Qed.

Lemma crosses_oneSided (i j : Z) :
  oneSided hm scale scaledLevel ->
  TerrainRenderer.crosses (h i) (h j) scaledLevel = false.
Proof.
  intros H. unfold TerrainRenderer.crosses.
  destruct (oneSided_heights H) as [Hgt | Hle].
  - now rewrite !Hgt, !andb_false_r.
  - now rewrite !Hle, !andb_false_r.
Qed.

Lemma scanSample_oneSided (x y : Z) (points : list Vector3) :
  oneSided hm scale scaledLevel ->
  TerrainRenderer.scanSample hm scale scaledLevel x y points = points.
Proof.
  intros H. unfold TerrainRenderer.scanSample.
  fold (h (y * width hm + x)) (h (y * width hm + x + 1))
       (h (y * width hm + x + width hm)).
  now rewrite !crosses_oneSided.
Qed.

End NoCrossing.

Lemma contourPoints_oneSided (hm : Heightmap) (scale : MapScale) (level : num) :
  oneSided hm scale (mul level (Fin (max_elevation_km scale))) ->
  TerrainRenderer.contourPoints hm scale level = [].
Proof.
  intros H. unfold TerrainRenderer.contourPoints.
  apply for_unchanged. intros y points.
  apply for_unchanged. intros x points'.
  now apply scanSample_oneSided.
Qed.

(** ** The divisor of the interpolation *)




Lemma scanSample_heights (hm : Heightmap) (scale : MapScale)
  (scaledLevel : num) (x y : Z) (points : list Vector3) :
  let idx := y * width hm + x in
  let h00 := heightAt hm scale idx in
  let h10 := heightAt hm scale (idx + 1) in
  let h01 := heightAt hm scale (idx + width hm) in
  TerrainRenderer.scanSample hm scale scaledLevel x y points
  = (fun points =>
       if TerrainRenderer.crosses h00 h01 scaledLevel
       then push points
              (TerrainRenderer.worldPoint hm scale (ofZ x)
                 (add (ofZ y) (TerrainRenderer.interpolate h00 h01 scaledLevel))
                 scaledLevel)
       else points)
      (if TerrainRenderer.crosses h00 h10 scaledLevel
       then push points
              (TerrainRenderer.worldPoint hm scale
                 (add (ofZ x) (TerrainRenderer.interpolate h00 h10 scaledLevel))
                 (ofZ y) scaledLevel)
       else points).
Proof. reflexivity. Qed.



(** ** Terrain statistics *)

Lemma isMinimum_unique (d : list Qc) (a b : Qc) :
  Contract.isMinimum d a -> Contract.isMinimum d b -> a = b.
Proof.
  intros [Ha La] [Hb Lb]. apply Qcle_antisym; [now apply La | now apply Lb].
Qed.

Lemma isMaximum_unique (d : list Qc) (a b : Qc) :
  Contract.isMaximum d a -> Contract.isMaximum d b -> a = b.
Proof.
  intros [Ha La] [Hb Lb]. apply Qcle_antisym; [now apply Lb | now apply La].
Qed.

Lemma minHeightOf_isMinimum (d : list Qc) (mn : Qc) :
  Contract.isMinimum d mn -> TerrainRenderer.minHeightOf d = Fin mn.
Proof.
  intros Hmn.
  assert (Hd : d <> []) by (destruct Hmn as [Hin _]; now destruct d).
  destruct (minHeightOf_minimum d Hd) as [mn' [E Hmn']].
  now rewrite E, (isMinimum_unique d mn mn').
Qed.

Lemma maxHeightOf_isMaximum (d : list Qc) (mx : Qc) :
  Contract.isMaximum d mx -> TerrainRenderer.maxHeightOf d = Fin mx.
Proof.
  intros Hmx.
  assert (Hd : d <> []) by (destruct Hmx as [Hin _]; now destruct d).
  destruct (maxHeightOf_maximum d Hd) as [mx' [E Hmx']].
  now rewrite E, (isMaximum_unique d mx mx').
Qed.

Lemma getTerrainInfo_of_extrema
  (r : TerrainRenderer.t) (hm : Heightmap) (mn mx : Qc) :
  TerrainRenderer.heightmap r = Some hm ->
  Contract.isMinimum (data hm) mn ->
  Contract.isMaximum (data hm) mx ->
  TerrainRenderer.getTerrainInfo r
  = Some (TerrainRenderer.mkTerrainInfo
            (Fin (mn * max_elevation_km (TerrainRenderer.mapScale r) * ofInt 1000)%Qc)
            (Fin (mx * max_elevation_km (TerrainRenderer.mapScale r) * ofInt 1000)%Qc)
            (Fin ((mx - mn) * max_elevation_km (TerrainRenderer.mapScale r)
                  * ofInt 1000)%Qc)
            (width_km (TerrainRenderer.mapScale r))
            (height_km (TerrainRenderer.mapScale r))
            (TerrainRenderer.resolution r)).
Proof.
  intros Hhm Hmn Hmx.
  unfold TerrainRenderer.getTerrainInfo. rewrite Hhm.
  now rewrite (minHeightOf_isMinimum _ _ Hmn), (maxHeightOf_isMaximum _ _ Hmx).
Qed.

(** C8. For a renderer holding a grid with at least one sample, the grid
    has a minimum [mn] and a maximum [mx], and [getTerrainInfo] returns
    exactly [mn * max_elevation_km * 1000], [mx * max_elevation_km * 1000]
    and [(mx - mn) * max_elevation_km * 1000] (no rounding), with [mapWidth]
    and [mapHeight] the scale's [width_km] and [height_km]; when the values
    span [0.1, 0.9] and [max_elevation_km = 5] the three fields are 500, 4500
    and 4000. *)
Theorem terrain_info_values (r : TerrainRenderer.t) (hm : Heightmap) :
  TerrainRenderer.heightmap r = Some hm ->
  data hm <> [] ->
  (exists mn mx,
      Contract.isMinimum (data hm) mn
      /\ Contract.isMaximum (data hm) mx
      /\ TerrainRenderer.getTerrainInfo r
         = Some (TerrainRenderer.mkTerrainInfo
                   (Fin (mn * max_elevation_km (TerrainRenderer.mapScale r)
                         * ofInt 1000)%Qc)
                   (Fin (mx * max_elevation_km (TerrainRenderer.mapScale r)
                         * ofInt 1000)%Qc)
                   (Fin ((mx - mn) * max_elevation_km (TerrainRenderer.mapScale r)
                         * ofInt 1000)%Qc)
                   (width_km (TerrainRenderer.mapScale r))
                   (height_km (TerrainRenderer.mapScale r))
                   (TerrainRenderer.resolution r)))
  /\ (Contract.isMinimum (data hm) (qc 1 10) ->
      Contract.isMaximum (data hm) (qc 9 10) ->
      max_elevation_km (TerrainRenderer.mapScale r) = qc 5 1 ->
      exists info,
        TerrainRenderer.getTerrainInfo r = Some info
        /\ TerrainRenderer.minElevation info = Fin (ofInt 500)
        /\ TerrainRenderer.maxElevation info = Fin (ofInt 4500)
        /\ TerrainRenderer.elevationRange info = Fin (ofInt 4000)).
Proof.
  intros Hhm Hd. split.
  - destruct (minHeightOf_minimum _ Hd) as [mn [_ Hmn]].
    destruct (maxHeightOf_maximum _ Hd) as [mx [_ Hmx]].
    exists mn, mx. repeat split; try apply Hmn; try apply Hmx.
    now apply getTerrainInfo_of_extrema with hm.
  - intros Hmn Hmx Hk.
    rewrite (getTerrainInfo_of_extrema r hm _ _ Hhm Hmn Hmx), Hk.
    eexists. split; [reflexivity |]. cbn.
    repeat split; f_equal; qc_eq.
Qed.

Lemma spanGrid_minimum : Contract.isMinimum (data spanGrid) (qc 1 10).
Proof.
  split; [simpl; tauto |].
  intros v Hv; simpl in Hv; intuition (subst v; vm_compute; discriminate).
Qed.

Lemma spanGrid_maximum : Contract.isMaximum (data spanGrid) (qc 9 10).
Proof.
  split; [simpl; tauto |].
  intros v Hv; simpl in Hv; intuition (subst v; vm_compute; discriminate).
Qed.

Lemma terrain_info_values_witness :
  exists info,
    TerrainRenderer.getTerrainInfo (rendererOf spanGrid defaultScale) = Some info
    /\ TerrainRenderer.minElevation info = Fin (ofInt 500)
    /\ TerrainRenderer.maxElevation info = Fin (ofInt 4500)
    /\ TerrainRenderer.elevationRange info = Fin (ofInt 4000).
Proof.
  apply (terrain_info_values (rendererOf spanGrid defaultScale) spanGrid).
  - reflexivity.
  - discriminate.
  - exact spanGrid_minimum.
  - exact spanGrid_maximum.
  - reflexivity.
Defined.

(** C10. For a renderer holding a grid with at least one sample,
    [getTerrainInfo] returns an object whose three elevation fields are finite
    numbers, and [elevationRange] is exactly [maxElevation - minElevation]. *)
Theorem elevation_range_identity (r : TerrainRenderer.t) (hm : Heightmap) :
  TerrainRenderer.heightmap r = Some hm ->
  data hm <> [] ->
  exists info lo hi,
    TerrainRenderer.getTerrainInfo r = Some info
    /\ TerrainRenderer.minElevation info = Fin lo
    /\ TerrainRenderer.maxElevation info = Fin hi
    /\ TerrainRenderer.elevationRange info = Fin (hi - lo)%Qc
    /\ TerrainRenderer.elevationRange info
       = sub (TerrainRenderer.maxElevation info)
             (TerrainRenderer.minElevation info).
Proof.
  intros Hhm Hd.
  destruct (minHeightOf_minimum _ Hd) as [mn [_ Hmn]].
  destruct (maxHeightOf_maximum _ Hd) as [mx [_ Hmx]].
  rewrite (getTerrainInfo_of_extrema r hm mn mx Hhm Hmn Hmx).
  set (k := max_elevation_km (TerrainRenderer.mapScale r)).
  assert (Hrange : ((mx - mn) * k * ofInt 1000
                    = mx * k * ofInt 1000 - mn * k * ofInt 1000)%Qc) by ring.
  eexists. exists (mn * k * ofInt 1000)%Qc, (mx * k * ofInt 1000)%Qc.
  split; [reflexivity |]. cbn. rewrite Hrange. now repeat split.
Qed.

Lemma elevation_range_identity_witness :
  exists info lo hi,
    TerrainRenderer.getTerrainInfo (rendererOf spanGrid defaultScale) = Some info
    /\ TerrainRenderer.minElevation info = Fin lo
    /\ TerrainRenderer.maxElevation info = Fin hi
    /\ TerrainRenderer.elevationRange info = Fin (hi - lo)%Qc
    /\ TerrainRenderer.elevationRange info
       = sub (TerrainRenderer.maxElevation info)
             (TerrainRenderer.minElevation info).
Proof.
  apply (elevation_range_identity (rendererOf spanGrid defaultScale) spanGrid).
  - reflexivity.
  - discriminate.
Defined.

(** ** Level planning and the guards of [addContours] *)

Lemma contourPoints_small_grid (hm : Heightmap) (scale : MapScale) (level : num) :
  width hm < 2 \/ height hm < 2 ->
  TerrainRenderer.contourPoints hm scale level = [].
Proof.
  intros Hsmall. unfold TerrainRenderer.contourPoints, for_.
  destruct (Z_lt_le_dec (height hm) 2) as [Hh | Hh].
  - now rewrite (counter_nonpos (height hm - 1)) by lia.
  - assert (Hw : width hm < 2) by lia.
    rewrite (counter_nonpos (width hm - 1)) by lia. simpl.
    now induction (counter (height hm - 1)).
Qed.

Lemma contourGroupOf_no_points (hm : Heightmap) (scale : MapScale)
  (levels : list num) :
  (forall level, In level levels ->
                 TerrainRenderer.contourPoints hm scale level = []) ->
  TerrainRenderer.contourGroupOf hm scale levels = [].
Proof.
  unfold TerrainRenderer.contourGroupOf.
  generalize (@nil (list Vector3)) as group.
  induction levels as [| level levels IH]; intros group H; simpl.
  - reflexivity.
  - rewrite (H level) by now left. simpl. apply IH. intros; apply H; now right.
Qed.

Lemma plannedLevels_flat (d : list Qc) (c : Qc) (contourLevels : Z) :
  (forall v, In v d -> v = c) ->
  TerrainRenderer.plannedLevels d contourLevels = None.
Proof.
  intros Hflat. unfold TerrainRenderer.plannedLevels.
  destruct d as [| w d]; [reflexivity |].
  assert (Hmin : Contract.isMinimum (w :: d) c).
  { split; [left; apply Hflat; now left |].
    intros v Hv. rewrite (Hflat v Hv). apply Qcle_refl. }
  assert (Hmax : Contract.isMaximum (w :: d) c).
  { split; [left; apply Hflat; now left |].
    intros v Hv. rewrite (Hflat v Hv). apply Qcle_refl. }
  rewrite (minHeightOf_isMinimum _ _ Hmin), (maxHeightOf_isMaximum _ _ Hmax).
  rewrite sub_Fin. unfold Qcminus. rewrite Qcplus_opp_r. reflexivity.
Qed.

Lemma contourLevelsOf_one (minHeight heightRange : num) :
  TerrainRenderer.contourLevelsOf minHeight heightRange 1 = [NaN].
Proof.
  assert (E : div (ofZ 0) (ofZ (1 - 1)) = NaN) by (vm_compute; reflexivity).
  unfold TerrainRenderer.contourLevelsOf, for_.
  change (counter 1) with [0]. cbn [fold_left]. unfold push. cbn [app].
  rewrite E. cbn [mul]. now destruct minHeight.
Qed.

(** C3. On a grid whose minimum [mn] is below its maximum [mx], the level
    loop of [addContours] run with [contourLevels = 1] computes
    [0 / (1 - 1)], which is [NaN]: the one planned level is [NaN], not the
    minimum. *)
Theorem single_level_plan_is_NaN (d : list Qc) (mn mx : Qc) :
  Contract.isMinimum d mn ->
  Contract.isMaximum d mx ->
  (mn < mx)%Qc ->
  TerrainRenderer.plannedLevels d 1 = Some [NaN]
  /\ TerrainRenderer.plannedLevels d 1 <> Some [Fin mn].
Proof.
  intros Hmn Hmx Hlt.
  assert (E : TerrainRenderer.plannedLevels d 1 = Some [NaN]).
  { unfold TerrainRenderer.plannedLevels.
    rewrite (minHeightOf_isMinimum _ _ Hmn), (maxHeightOf_isMaximum _ _ Hmx).
    rewrite sub_Fin.
    assert (Hgt : gt (Fin (mx - mn)%Qc) (ofZ 0) = true).
    { unfold ofZ. rewrite gt_Fin. apply Qcltb_lt.
      now apply (proj1 (Qclt_minus_iff mn mx)). }
    now rewrite Hgt, contourLevelsOf_one. }
  split; [exact E | rewrite E; discriminate].
Qed.

Lemma single_level_plan_is_NaN_witness :
  TerrainRenderer.plannedLevels (data scenarioGrid) 1 = Some [NaN]
  /\ TerrainRenderer.plannedLevels (data scenarioGrid) 1 <> Some [Fin (qc 0 1)].
Proof.
  apply (single_level_plan_is_NaN (data scenarioGrid) (qc 0 1) (qc 1 1)).
  - split; [simpl; tauto |].
    intros v Hv; simpl in Hv; intuition (subst v; vm_compute; discriminate).
  - split; [simpl; tauto |].
    intros v Hv; simpl in Hv; intuition (subst v; vm_compute; discriminate).
  - vm_compute; reflexivity.
Defined.

(** C4, as stated, fails on the 3x3 grid of 0.2 with five levels requested:
    no level is planned. *)
Lemma flat_plan_counterexample :
  TerrainRenderer.plannedLevels (data flatGrid) 5 = None
  /\ TerrainRenderer.plannedLevels (data flatGrid) 5 <> Some [Fin (qc 1 5)].
Proof.
  assert (E : TerrainRenderer.plannedLevels (data flatGrid) 5 = None)
    by (vm_compute; reflexivity).
  split; [exact E | rewrite E; discriminate].
Qed.

(** C4, amended. On a grid whose samples are all equal, whatever the number
    of levels requested, the guard [heightRange > 0] is false: no level is
    planned, and [addContours] returns with the renderer unchanged. *)
Theorem flat_grid_plans_no_level
  (r : TerrainRenderer.t) (hm : Heightmap) (c : Qc) :
  TerrainRenderer.heightmap r = Some hm ->
  (forall v, In v (data hm) -> v = c) ->
  (forall contourLevels, TerrainRenderer.plannedLevels (data hm) contourLevels = None)
  /\ TerrainRenderer.addContours r = Normal r.
Proof.
  intros Hhm Hflat.
  assert (Hplan : forall n, TerrainRenderer.plannedLevels (data hm) n = None)
    by (intros n; now apply plannedLevels_flat with c).
  split; [exact Hplan |].
  unfold TerrainRenderer.addContours. rewrite Hhm, Hplan.
  now destruct (TerrainRenderer.contourLevels r <=? 0).
Qed.

Lemma flat_grid_plans_no_level_witness :
  (forall contourLevels,
      TerrainRenderer.plannedLevels (data flatGrid) contourLevels = None)
  /\ TerrainRenderer.addContours (rendererOf flatGrid defaultScale)
     = Normal (rendererOf flatGrid defaultScale).
Proof.
  apply (flat_grid_plans_no_level (rendererOf flatGrid defaultScale) flatGrid (qc 1 5)).
  - reflexivity.
  - intros v Hv. simpl in Hv. intuition congruence.
Defined.

(** C2, as stated, fails on a grid one sample wide and on a request for zero
    levels: [addContours] returns normally, with an empty contour group in
    the first case and with nothing changed in the second. *)
Lemma small_inputs_counterexample :
  (TerrainRenderer.addContours (rendererOf narrowGrid defaultScale)
   = Normal (TerrainRenderer.setContours (rendererOf narrowGrid defaultScale) [])
   /\ TerrainRenderer.addContours noLevelRenderer = Normal noLevelRenderer)
  /\ ~ (exists message,
          TerrainRenderer.addContours (rendererOf narrowGrid defaultScale)
          = Throw message)
  /\ ~ (exists message,
          TerrainRenderer.addContours noLevelRenderer = Throw message).
Proof.
  assert (Hnarrow :
            TerrainRenderer.addContours (rendererOf narrowGrid defaultScale)
            = Normal (TerrainRenderer.setContours
                        (rendererOf narrowGrid defaultScale) []))
    by (vm_compute; reflexivity).
  assert (Hzero : TerrainRenderer.addContours noLevelRenderer
                  = Normal noLevelRenderer)
    by (vm_compute; reflexivity).
  repeat split; try assumption.
  - intros [message H]. rewrite Hnarrow in H. discriminate.
  - intros [message H]. rewrite Hzero in H. discriminate.
Qed.

(** C2, amended. [addContours] raises no error on small inputs: with a level
    count below 1 it returns at once and changes nothing; on a grid narrower
    or lower than 2 samples no level collects any point, and the call returns
    normally, either with nothing changed or with an empty contour group. *)
Theorem small_inputs_return_silently (r : TerrainRenderer.t) :
  TerrainRenderer.contourLevels r <= 0
  \/ (exists hm, TerrainRenderer.heightmap r = Some hm
                 /\ (width hm < 2 \/ height hm < 2)) ->
  (TerrainRenderer.addContours r = Normal r
   \/ TerrainRenderer.addContours r = Normal (TerrainRenderer.setContours r []))
  /\ (TerrainRenderer.contourLevels r <= 0 ->
      TerrainRenderer.addContours r = Normal r)
  /\ (forall hm level,
         TerrainRenderer.heightmap r = Some hm ->
         width hm < 2 \/ height hm < 2 ->
         TerrainRenderer.contourPoints hm (TerrainRenderer.mapScale r) level = []).
Proof.
  intros H.
  assert (Hzero : TerrainRenderer.contourLevels r <= 0 ->
                  TerrainRenderer.addContours r = Normal r).
  { intros Hn. unfold TerrainRenderer.addContours.
    destruct (TerrainRenderer.heightmap r); [| reflexivity].
    now rewrite (proj2 (Z.leb_le _ _) Hn). }
  split; [| split; [exact Hzero |]].
  - destruct H as [Hn | [hm [Hhm Hsmall]]]; [left; now apply Hzero |].
    unfold TerrainRenderer.addContours. rewrite Hhm.
    destruct (TerrainRenderer.contourLevels r <=? 0); [now left |].
    destruct (TerrainRenderer.plannedLevels (data hm) (TerrainRenderer.contourLevels r));
      [right | now left].
    rewrite contourGroupOf_no_points; [reflexivity |].
    intros level _. now apply contourPoints_small_grid.
  - intros hm level _ Hsmall. now apply contourPoints_small_grid.
Qed.

Lemma small_inputs_return_silently_witness :
  (TerrainRenderer.addContours (rendererOf narrowGrid defaultScale)
   = Normal (rendererOf narrowGrid defaultScale)
   \/ TerrainRenderer.addContours (rendererOf narrowGrid defaultScale)
      = Normal (TerrainRenderer.setContours (rendererOf narrowGrid defaultScale) []))
  /\ (TerrainRenderer.contourLevels (rendererOf narrowGrid defaultScale) <= 0 ->
      TerrainRenderer.addContours (rendererOf narrowGrid defaultScale)
      = Normal (rendererOf narrowGrid defaultScale))
  /\ (forall hm level,
         TerrainRenderer.heightmap (rendererOf narrowGrid defaultScale) = Some hm ->
         width hm < 2 \/ height hm < 2 ->
         TerrainRenderer.contourPoints hm
           (TerrainRenderer.mapScale (rendererOf narrowGrid defaultScale)) level = []).
Proof.
  apply (small_inputs_return_silently (rendererOf narrowGrid defaultScale)).
  right. exists narrowGrid. split; [reflexivity | left; simpl; lia].
Defined.

(** ** The R16 reader *)

Lemma getUint8_in_range (buffer : list byte) (off : Z) :
  0 <= off < DataView.byteLength buffer ->
  DataView.getUint8 buffer off = Normal (R16.byteOf buffer off).
Proof.
  unfold DataView.byteLength, DataView.getUint8, R16.byteOf. intros Hoff.
  destruct (Z.ltb_spec off 0) as [Hneg | _]; [lia |].
  destruct (nth_error buffer (Z.to_nat off)) as [b |] eqn:E.
  - now rewrite (nth_error_nth _ _ _ E).
  - apply nth_error_None in E. lia.
Qed.

Lemma getUint8_out_of_range (buffer : list byte) (off : Z) :
  DataView.byteLength buffer <= off ->
  DataView.getUint8 buffer off = Throw DataView.RangeError.
Proof.
  unfold DataView.byteLength, DataView.getUint8. intros Hoff.
  destruct (off <? 0); [reflexivity |].
  destruct (nth_error buffer (Z.to_nat off)) as [b |] eqn:E; [| reflexivity].
  assert (Hlt : (Z.to_nat off < List.length buffer)%nat)
    by (apply nth_error_Some; congruence).
  lia.
Qed.

Lemma getUint16_in_range (buffer : list byte) (off : Z) :
  0 <= off -> off + 2 <= DataView.byteLength buffer ->
  DataView.getUint16 buffer off = Normal (R16.u16le buffer off).
Proof.
  intros H0 H2. unfold DataView.getUint16, R16.u16le.
  rewrite !getUint8_in_range by lia. f_equal. ring.
Qed.

Lemma getUint32_in_range (buffer : list byte) (off : Z) :
  0 <= off -> off + 4 <= DataView.byteLength buffer ->
  DataView.getUint32 buffer off = Normal (R16.u32le buffer off).
Proof.
  intros H0 H4. unfold DataView.getUint32, R16.u32le.
  rewrite !getUint8_in_range by lia. f_equal. ring.
Qed.

Lemma getUint32_out_of_range (buffer : list byte) (off : Z) :
  0 <= off -> DataView.byteLength buffer < off + 4 ->
  DataView.getUint32 buffer off = Throw DataView.RangeError.
Proof.
  intros H0 H4. unfold DataView.getUint32.
  rewrite (getUint8_out_of_range buffer (off + 3)) by lia.
  destruct (DataView.getUint8 buffer off);
    destruct (DataView.getUint8 buffer (off + 1));
    destruct (DataView.getUint8 buffer (off + 2)); reflexivity.
Qed.

Lemma setNth_middle (done rest : list Qc) (old v : Qc) :
  setNth (done ++ old :: rest) (List.length done) v = done ++ v :: rest.
Proof.
  induction done as [| a done IH]; simpl; [reflexivity | now rewrite IH].
Qed.

(** The sample loop after [k] rounds: [k] decoded samples, then the zeros
    the array was created with. *)
Lemma readR16Samples_rounds (buffer : list byte) (n : Z) (k : nat) :
  8 + n * 2 <= DataView.byteLength buffer ->
  (k <= Z.to_nat n)%nat ->
  fold_left
    (fun acc i =>
       match acc with
       | Throw e => Throw e
       | Normal heightmap =>
           match DataView.getUint16 buffer (8 + i * 2) with
           | Throw e => Throw e
           | Normal v => Normal (setAt heightmap i (ratio v 65535))
           end
       end)
    (counter (Z.of_nat k)) (Normal (Float32Array n))
  = Normal (map (R16.sample buffer) (counter (Z.of_nat k))
            ++ repeat (Q2Qc 0) (Z.to_nat n - k)).
Proof.
  intros Hlen. induction k as [| k IH]; intros Hk.
  - simpl. now rewrite Nat.sub_0_r.
  - replace (Z.of_nat (S k)) with (Z.of_nat k + 1) by lia.
    rewrite counter_succ by lia.
    rewrite fold_left_app, IH by lia. cbn [fold_left].
    rewrite getUint16_in_range by lia.
    rewrite map_app, <- app_assoc. cbn [map app]. f_equal.
    unfold setAt. destruct (Z.ltb_spec (Z.of_nat k) 0) as [Hneg | _]; [lia |].
    replace (Z.to_nat n - k)%nat with (S (Z.to_nat n - S k)) by lia.
    cbn [repeat].
    replace (Z.to_nat (Z.of_nat k))
      with (List.length (map (R16.sample buffer) (counter (Z.of_nat k))))
      by (rewrite length_map, counter_length; lia).
    now rewrite setNth_middle.
Qed.

Lemma readR16Samples_all (buffer : list byte) (n : Z) :
  8 + n * 2 <= DataView.byteLength buffer ->
  readR16Samples buffer n = Normal (map (R16.sample buffer) (counter n)).
Proof.
  intros Hlen. unfold readR16Samples, for_.
  destruct (Z_lt_le_dec n 0) as [Hneg | Hpos].
  - rewrite counter_nonpos by lia. unfold Float32Array.
    now replace (Z.to_nat n) with O by lia.
  - pose proof (readR16Samples_rounds buffer n (Z.to_nat n) Hlen (Nat.le_refl _)) as H.
    rewrite Z2Nat.id in H by lia. rewrite H, Nat.sub_diag. cbn [repeat].
    now rewrite app_nil_r.
Qed.

Lemma readR16Heightmap_decodes (buffer : list byte) :
  readR16Heightmap buffer
  = if DataView.byteLength buffer <? 8
    then Throw ("Failed to parse R16 file: " ++ DataView.RangeError)
    else if DataView.byteLength buffer
            =? 8 + R16.u32le buffer 0 * R16.u32le buffer 4 * 2
         then Normal (R16.decoded buffer)
         else Throw "Invalid R16 file size".
Proof.
  unfold readR16Heightmap.
  destruct (Z.ltb_spec (DataView.byteLength buffer) 8) as [Hshort | Hlong].
  - destruct (Z_lt_le_dec (DataView.byteLength buffer) 4) as [H4 | H4].
    + now rewrite getUint32_out_of_range by lia.
    + rewrite (getUint32_in_range buffer 0) by lia.
      now rewrite getUint32_out_of_range by lia.
  - rewrite !getUint32_in_range by lia.
    destruct (Z.eqb_spec (DataView.byteLength buffer)
                (8 + R16.u32le buffer 0 * R16.u32le buffer 4 * 2)) as [E | E];
      cbn [negb]; [| reflexivity].
    now rewrite readR16Samples_all by lia.
Qed.

Lemma byteValue_range (b : byte) : 0 <= byteValue b <= 255.
Proof.
  unfold byteValue. pose proof (Byte.to_N_bounded b). lia.
Qed.

Lemma u16le_range (buffer : list byte) (off : Z) :
  0 <= R16.u16le buffer off <= 65535.
Proof.
  unfold R16.u16le, R16.byteOf.
  pose proof (byteValue_range (nth (Z.to_nat off) buffer x00)).
  pose proof (byteValue_range (nth (Z.to_nat (off + 1)) buffer x00)).
  lia.
Qed.

Lemma u32le_nonneg (buffer : list byte) (off : Z) : 0 <= R16.u32le buffer off.
Proof.
  unfold R16.u32le, R16.byteOf.
  pose proof (byteValue_range (nth (Z.to_nat off) buffer x00)).
  pose proof (byteValue_range (nth (Z.to_nat (off + 1)) buffer x00)).
  pose proof (byteValue_range (nth (Z.to_nat (off + 2)) buffer x00)).
  pose proof (byteValue_range (nth (Z.to_nat (off + 3)) buffer x00)).
  lia.
Qed.

Lemma nth_map_counter {A : Type} (f : Z -> A) (n i : Z) (d : A) :
  0 <= i < n -> nth (Z.to_nat i) (map f (counter n)) d = f i.
Proof.
  intros Hi.
  rewrite (nth_indep _ d (f 0)) by (rewrite length_map, counter_length; lia).
  rewrite (map_nth f (counter n) 0 (Z.to_nat i)). f_equal. unfold counter.
  rewrite (nth_indep _ 0 (Z.of_nat 0)) by (rewrite length_map, length_seq; lia).
  rewrite map_nth, seq_nth by lia. lia.
Qed.

(** ** The random generator *)

(** A loop that stores [f i] at index [base + i], round after round, into an
    array still holding zeros from [base] on. *)
Lemma fill_rounds (f : Z -> Qc) (done : list Qc) (base : Z) (m k : nat) :
  Z.of_nat (List.length done) = base ->
  (k <= m)%nat ->
  fold_left (fun heightmap i => setAt heightmap (base + i) (f i))
    (counter (Z.of_nat k)) (done ++ repeat (Q2Qc 0) m)
  = done ++ map f (counter (Z.of_nat k)) ++ repeat (Q2Qc 0) (m - k).
Proof.
  intros Hbase. induction k as [| k IH]; intros Hk.
  - simpl. now rewrite Nat.sub_0_r.
  - replace (Z.of_nat (S k)) with (Z.of_nat k + 1) by lia.
    rewrite counter_succ by lia.
    rewrite fold_left_app, IH by lia. cbn [fold_left].
    rewrite map_app, <- !app_assoc. cbn [map app].
    unfold setAt. destruct (Z.ltb_spec (base + Z.of_nat k) 0) as [Hneg | _]; [lia |].
    replace (m - k)%nat with (S (m - S k)) by lia. cbn [repeat].
    rewrite (app_assoc done).
    replace (Z.to_nat (base + Z.of_nat k))
      with (List.length (done ++ map f (counter (Z.of_nat k))))
      by (rewrite length_app, length_map, counter_length; lia).
    now rewrite setNth_middle, <- app_assoc.
Qed.

Section Generator.

Variable Math_sin : Qc -> Qc.
Variables w h : Z.
Hypothesis w_nonneg : 0 <= w.
Hypothesis h_nonneg : 0 <= h.

(** The samples of the generator, row after row. *)
Let rows (n : Z) : list Qc :=
  flat_map
    (fun y => map (fun x => randomSample Math_sin w h x y) (counter w))
    (counter n).

Lemma rows_succ (n : Z) :
  0 <= n ->
  rows (n + 1)
  = rows n ++ map (fun x => randomSample Math_sin w h x n) (counter w).
Proof.
  intros Hn. unfold rows.
  rewrite counter_succ, flat_map_app by lia. cbn [flat_map].
  now rewrite app_nil_r.
Qed.

Lemma rows_length (n : nat) :
  List.length (rows (Z.of_nat n)) = (n * Z.to_nat w)%nat.
Proof.
  induction n as [| n IH]; [reflexivity |].
  replace (Z.of_nat (S n)) with (Z.of_nat n + 1) by lia.
  rewrite rows_succ, length_app, IH by lia.
  rewrite length_map, counter_length. lia.
Qed.

Lemma generate_rounds (k : nat) :
  (k <= Z.to_nat h)%nat ->
  fold_left
    (fun heightmap y =>
       for_ w
         (fun x heightmap =>
            setAt heightmap (y * w + x) (randomSample Math_sin w h x y))
         heightmap)
    (counter (Z.of_nat k)) (Float32Array (w * h))
  = rows (Z.of_nat k)
    ++ repeat (Q2Qc 0) ((Z.to_nat h - k) * Z.to_nat w).
Proof.
  induction k as [| k IH]; intros Hk.
  - unfold Float32Array. simpl. f_equal. nia.
  - replace (Z.of_nat (S k)) with (Z.of_nat k + 1) by lia.
    rewrite counter_succ by lia.
    rewrite fold_left_app, IH by lia. cbn [fold_left]. unfold for_.
    replace ((Z.to_nat h - k) * Z.to_nat w)%nat
      with (Z.to_nat w + (Z.to_nat h - S k) * Z.to_nat w)%nat by nia.
    pose proof (fill_rounds
                  (fun x => randomSample Math_sin w h x (Z.of_nat k))
                  (rows (Z.of_nat k)) (Z.of_nat k * w)
                  (Z.to_nat w + (Z.to_nat h - S k) * Z.to_nat w)
                  (Z.to_nat w)) as Hfill.
    rewrite Z2Nat.id in Hfill by lia.
    rewrite Hfill by (rewrite ?rows_length; nia).
    rewrite rows_succ, <- app_assoc by lia. do 3 f_equal.
    generalize ((Z.to_nat h - S k) * Z.to_nat w)%nat. intros rest. lia.
Qed.

Lemma generateRandomHeightmap_rows :
  data (generateRandomHeightmap Math_sin w h) = rows h.
Proof.
  unfold generateRandomHeightmap. cbn [data]. unfold for_ at 1.
  pose proof (generate_rounds (Z.to_nat h) (Nat.le_refl _)) as H.
  rewrite Z2Nat.id in H by lia.
  rewrite H, Nat.sub_diag. cbn [Nat.mul repeat]. apply app_nil_r.
Qed.

Lemma rows_nth (n : nat) (x y : Z) (d : Qc) :
  0 <= x < w -> 0 <= y < Z.of_nat n ->
  nth (Z.to_nat (y * w + x)) (rows (Z.of_nat n)) d
  = randomSample Math_sin w h x y.
Proof.
  intros Hx. induction n as [| n IH]; intros Hy; [lia |].
  replace (Z.of_nat (S n)) with (Z.of_nat n + 1) by lia.
  rewrite rows_succ by lia.
  pose proof (rows_length n) as Hlen.
  destruct (Z_lt_le_dec y (Z.of_nat n)) as [Hlt | Hge].
  - rewrite app_nth1 by (rewrite Hlen; nia). apply IH. lia.
  - assert (Ey : y = Z.of_nat n) by lia. subst y.
    rewrite app_nth2 by (rewrite Hlen; nia). rewrite Hlen.
    replace (Z.to_nat (Z.of_nat n * w + x) - n * Z.to_nat w)%nat
      with (Z.to_nat x) by nia.
    now rewrite (nth_map_counter
                   (fun x' => randomSample Math_sin w h x' (Z.of_nat n))).
Qed.

(** The generator keeps the length of the grid, and stores at
    [(x, y)] the sample computed for [(x, y)]. *)
Lemma generateRandomHeightmap_wellFormed :
  Contract.wellFormed (generateRandomHeightmap Math_sin w h).
Proof.
  unfold Contract.wellFormed. rewrite generateRandomHeightmap_rows.
  cbn [width height generateRandomHeightmap].
  rewrite <- (Z2Nat.id h) at 1 by lia. rewrite rows_length. nia.
Qed.

Lemma generateRandomHeightmap_sample (x y : Z) :
  0 <= x < w -> 0 <= y < h ->
  Contract.value (generateRandomHeightmap Math_sin w h) x y
  = randomSample Math_sin w h x y.
Proof.
  intros Hx Hy. unfold Contract.value. rewrite generateRandomHeightmap_rows.
  cbn [width generateRandomHeightmap].
  replace (rows h) with (rows (Z.of_nat (Z.to_nat h)))
    by (now rewrite Z2Nat.id by lia).
  apply rows_nth; lia.
Qed.

End Generator.

(** ** The noise at the dyadic points around the origin *)

Section NoiseValues.

Variable Math_sin : Qc -> Qc.
Hypothesis sin_0 : Math_sin (Q2Qc 0) = Q2Qc 0.

Lemma getGradient_origin : getGradient Math_sin 0 0 = (ofInt 1, ofInt 1).
Proof.
  unfold getGradient.
  replace (ofInt 0 * Q2Qc (129898 # 10000) + ofInt 0 * Q2Qc (78233 # 1000))%Qc
    with (Q2Qc 0) by qc_eq.
  rewrite sin_0.
  replace (Q2Qc 0 * Q2Qc (437585453 # 10000) * ofInt 8)%Qc with (Q2Qc 0) by qc_eq.
  reflexivity.
Qed.

(** A corner further than [sqrt 0.5] from the point contributes nothing,
    whatever its gradient. *)
Lemma contribution_far (ix iy : Z) (x y : Qc) :
  (half - (x - ofInt ix) * (x - ofInt ix) - (y - ofInt iy) * (y - ofInt iy)
   < ofInt 0)%Qc ->
  contribution Math_sin ix iy x y = ofInt 0.
Proof.
  intros Ht. unfold contribution. cbv zeta.
  destruct (Qclt_le_dec _ _) as [_ | Hle]; [reflexivity |].
  now apply Qcle_not_lt in Hle.
Qed.

(** So does a corner at distance exactly [sqrt 0.5]. *)
Lemma contribution_rim (ix iy : Z) (x y : Qc) :
  (half - (x - ofInt ix) * (x - ofInt ix) - (y - ofInt iy) * (y - ofInt iy)
   = ofInt 0)%Qc ->
  contribution Math_sin ix iy x y = ofInt 0.
Proof.
  intros Ht. unfold contribution. cbv zeta.
  destruct (Qclt_le_dec _ _) as [_ | _]; [reflexivity |].
  rewrite Ht. change (ofInt 0) with (Q2Qc 0). ring.
Qed.

(** So does the corner the point sits on. *)
Lemma contribution_node (ix iy : Z) (x y : Qc) :
  x = ofInt ix -> y = ofInt iy ->
  contribution Math_sin ix iy x y = ofInt 0.
Proof.
  intros -> ->. unfold contribution, dot. cbv zeta.
  destruct (Qclt_le_dec _ _) as [_ | _]; [reflexivity |].
  change (ofInt 0) with (Q2Qc 0). ring.
Qed.

(** The corner at the origin has gradient [(1, 1)]. *)
Lemma contribution_origin (x y : Qc) :
  (ofInt 0 <= half - x * x - y * y)%Qc ->
  contribution Math_sin 0 0 x y
  = ((half - x * x - y * y) * (half - x * x - y * y)
     * ((half - x * x - y * y) * (half - x * x - y * y)) * (x + y))%Qc.
Proof.
  intros Ht. unfold contribution. cbv zeta. rewrite getGradient_origin.
  assert (Ex : (x - ofInt 0)%Qc = x) by (change (ofInt 0) with (Q2Qc 0); ring).
  assert (Ey : (y - ofInt 0)%Qc = y) by (change (ofInt 0) with (Q2Qc 0); ring).
  rewrite Ex, Ey.
  destruct (Qclt_le_dec _ _) as [Hlt | _].
  - now apply Qcle_not_lt in Ht.
  - unfold dot. cbn [fst snd]. change (ofInt 1) with (Q2Qc 1). ring.
Qed.

Lemma simplex2D_cell (x y : Qc) (ix iy : Z) :
  Math_floor x = ix -> Math_floor y = iy ->
  simplex2D Math_sin x y
  = ((contribution Math_sin ix iy x y
      + contribution Math_sin (ix + 1) iy x y
      + contribution Math_sin ix (iy + 1) x y
      + contribution Math_sin (ix + 1) (iy + 1) x y) * ofInt 70)%Qc.
Proof. intros <- <-. reflexivity. Qed.

Ltac closed_order := vm_compute; first [reflexivity | discriminate].

Lemma simplex2D_eighth (x y : Qc) :
  x = qc 1 8 -> y = qc 1 8 ->
  simplex2D Math_sin x y = qc 1771875 2097152.
Proof.
  intros -> ->.
  rewrite (simplex2D_cell _ _ 0 0) by (vm_compute; reflexivity).
  rewrite contribution_origin by closed_order.
  rewrite !contribution_far by closed_order.
  qc_eq.
Qed.

Lemma simplex2D_quarter (x y : Qc) :
  x = qc 1 4 -> y = qc 1 4 ->
  simplex2D Math_sin x y = qc 2835 4096.
Proof.
  intros -> ->.
  rewrite (simplex2D_cell _ _ 0 0) by (vm_compute; reflexivity).
  rewrite contribution_origin by closed_order.
  rewrite !contribution_far by closed_order.
  qc_eq.
Qed.

Lemma simplex2D_centre (x y : Qc) :
  x = qc 1 2 -> y = qc 1 2 ->
  simplex2D Math_sin x y = ofInt 0.
Proof.
  intros -> ->.
  rewrite (simplex2D_cell _ _ 0 0) by (vm_compute; reflexivity).
  rewrite !contribution_rim by qc_eq.
  qc_eq.
Qed.

Lemma simplex2D_node (k : Z) (x y : Qc) :
  k = 1 \/ k = 2 \/ k = 4 ->
  x = ofInt k -> y = ofInt k ->
  simplex2D Math_sin x y = ofInt 0.
Proof.
  intros Hk -> ->.
  destruct Hk as [-> | [-> | ->]].
  all: match goal with
       | |- simplex2D _ (ofInt ?k) _ = _ =>
           rewrite (simplex2D_cell _ _ k k) by (vm_compute; reflexivity)
       end.
  all: rewrite contribution_node by reflexivity.
  all: rewrite !contribution_far by closed_order.
  all: qc_eq.
Qed.

Lemma octaves_eighth (nx ny : Qc) :
  nx = qc 1 8 -> ny = qc 1 8 ->
  octaves Math_sin nx ny = qc 2497635 2097152.
Proof.
  intros -> ->. unfold octaves, for_.
  change (counter 6) with [0; 1; 2; 3; 4; 5]. cbn [fold_left].
  rewrite simplex2D_eighth by qc_eq.
  rewrite simplex2D_quarter by qc_eq.
  rewrite simplex2D_centre by qc_eq.
  rewrite (simplex2D_node 1) by (tauto || qc_eq).
  rewrite (simplex2D_node 2) by (tauto || qc_eq).
  rewrite (simplex2D_node 4) by (tauto || qc_eq).
  qc_eq.
Qed.

Lemma randomSample_five_eighths (w h x y : Z) :
  0 < w -> 0 < h -> 8 * x = 5 * w -> 8 * y = 5 * h ->
  randomSample Math_sin w h x y = qc 4594787 4194304.
Proof.
  intros Hw Hh Hx Hy. unfold randomSample. cbv zeta.
  assert (Efrac : forall a b, 0 < b -> 8 * a = 5 * b ->
                              (ofInt a / ofInt b - half)%Qc = qc 1 8).
  { intros a b Hb Hab. apply Qc_is_canon.
    unfold ofInt, half, qc, Qcminus, Qcdiv, Qcplus, Qcmult, Qcopp, Qcinv, Q2Qc.
    cbn [this]. rewrite !Qred_correct.
    assert (Hb' : ~ inject_Z b == 0).
    { unfold Qeq, inject_Z. simpl. lia. }
    assert (Ha : inject_Z a == (5 # 8) * inject_Z b).
    { unfold Qeq, inject_Z, Qmult. cbn [Qnum Qden]. lia. }
    rewrite Ha. field. exact Hb'. }
  rewrite octaves_eighth by (apply Efrac; assumption).
  qc_eq.
Qed.

End NoiseValues.

(** C5. The generator does not keep its samples in [0, 1]: whatever
    [Math.sin] is, as long as [Math.sin(0) = 0], on a grid of [8n x 8n]
    samples (8x8, or the 256x256 demo grid of the application) the grid has
    [width * height] samples and the sample at [(5n, 5n)] is
    [4594787 / 4194304], about 1.0955. *)
Theorem generateRandomHeightmap_above_one (Math_sin : Qc -> Qc) (n : Z) :
  Math_sin (Q2Qc 0) = Q2Qc 0 ->
  0 < n ->
  Contract.wellFormed (generateRandomHeightmap Math_sin (8 * n) (8 * n))
  /\ Contract.value (generateRandomHeightmap Math_sin (8 * n) (8 * n)) (5 * n) (5 * n)
     = qc 4594787 4194304
  /\ ~ Contract.inUnit
       (Contract.value (generateRandomHeightmap Math_sin (8 * n) (8 * n))
          (5 * n) (5 * n)).
Proof.
  intros Hsin Hn.
  assert (Hvalue :
            Contract.value (generateRandomHeightmap Math_sin (8 * n) (8 * n))
              (5 * n) (5 * n) = qc 4594787 4194304).
  { rewrite generateRandomHeightmap_sample by lia.
    apply randomSample_five_eighths; (exact Hsin || lia). }
  split; [apply generateRandomHeightmap_wellFormed; lia |].
  split; [exact Hvalue |].
  rewrite Hvalue. intros [_ Hle]. vm_compute in Hle. now apply Hle.
Qed.

Lemma generateRandomHeightmap_above_one_witness :
  Contract.wellFormed (generateRandomHeightmap (fun _ => Q2Qc 0) (8 * 32) (8 * 32))
  /\ Contract.value (generateRandomHeightmap (fun _ => Q2Qc 0) (8 * 32) (8 * 32))
       (5 * 32) (5 * 32)
     = qc 4594787 4194304
  /\ ~ Contract.inUnit
       (Contract.value (generateRandomHeightmap (fun _ => Q2Qc 0) (8 * 32) (8 * 32))
          (5 * 32) (5 * 32)).
Proof.
  apply (generateRandomHeightmap_above_one (fun _ => Q2Qc 0) 32).
  - reflexivity.
  - lia.
Defined.

(** ** The grid invariant of the R16 reader *)

Lemma ratio_inUnit (v d : Z) : 0 <= v <= d -> 0 < d -> Contract.inUnit (ratio v d).
Proof.
  intros Hv Hd. destruct d as [| p | p]; try lia.
  unfold Contract.inUnit, ratio, Qcle, Qcdiv, Qcmult, Qcinv, Q2Qc.
  cbn [this]. rewrite !Qred_correct.
  unfold Qle, Qmult, Qinv, inject_Z. cbn [Qnum Qden]. lia.
Qed.

(** X1. Every grid the R16 reader resolves with satisfies the grid invariant:
    [width * height] samples, each in [0, 1]. *)
Theorem readR16Heightmap_grid_invariant (buffer : list byte) (hm : Heightmap) :
  readR16Heightmap buffer = Normal hm ->
  Contract.wellFormed hm
  /\ 0 <= width hm /\ 0 <= height hm
  /\ Forall Contract.inUnit (data hm).
Proof.
  intros Hread.
  assert (Ehm : hm = R16.decoded buffer).
  { pose proof (readR16Heightmap_decodes buffer) as Hc.
    rewrite Hc in Hread.
    destruct (DataView.byteLength buffer <? 8); [discriminate |].
    destruct (DataView.byteLength buffer
              =? 8 + R16.u32le buffer 0 * R16.u32le buffer 4 * 2);
      [congruence | discriminate]. }
  subst hm. unfold R16.decoded, Contract.wellFormed. cbn [data width height].
  pose proof (u32le_nonneg buffer 0) as Hw.
  pose proof (u32le_nonneg buffer 4) as Hh.
  repeat split; try assumption.
  - rewrite length_map, counter_length. nia.
  - apply Forall_forall. intros v Hv. apply in_map_iff in Hv.
    destruct Hv as [i [<- _]]. unfold R16.sample.
    apply ratio_inUnit; [apply u16le_range | lia].
Qed.

Lemma readR16Heightmap_grid_invariant_witness :
  Contract.wellFormed (R16.decoded r16File)
  /\ 0 <= width (R16.decoded r16File) /\ 0 <= height (R16.decoded r16File)
  /\ Forall Contract.inUnit (data (R16.decoded r16File)).
Proof.
  apply (readR16Heightmap_grid_invariant r16File (R16.decoded r16File)).
  vm_compute. reflexivity.
Defined.

Example readR16Heightmap_truncated :
  readR16Heightmap r16Truncated = Throw "Invalid R16 file size".
Proof. vm_compute. reflexivity. Qed.

Example readR16Heightmap_no_header :
  readR16Heightmap r16NoHeader
  = Throw "Failed to parse R16 file: Offset is outside the bounds of the DataView".
Proof. vm_compute. reflexivity. Qed.

Lemma fold_left_ext_in {A B : Type} (f g : A -> B -> A) (l : list B) (a : A) :
  (forall acc i, In i l -> f acc i = g acc i) ->
  fold_left f l a = fold_left g l a.
Proof.
  revert a. induction l as [| i l IH]; intros a H; simpl; [reflexivity |].
  rewrite (H a i) by now left. apply IH. intros; apply H; now right.
Qed.

(** ** Evenly spaced levels *)

Lemma ofInt_nonzero (z : Z) : z <> 0 -> ofInt z <> Q2Qc 0.
Proof.
  intros Hz E. apply Q2Qc_eq_iff in E.
  now apply (inject_Z_injective z 0) in E.
Qed.

(** X3. On a grid whose minimum [mn] is below its maximum [mx], a request
    for [n >= 2] levels plans exactly [n] levels, level [i] being
    [mn + (i / (n - 1)) * (mx - mn)]. *)
Theorem plannedLevels_evenly_spaced (d : list Qc) (mn mx : Qc) (n : Z) :
  Contract.isMinimum d mn ->
  Contract.isMaximum d mx ->
  (mn < mx)%Qc ->
  2 <= n ->
  TerrainRenderer.plannedLevels d n = Some (evenLevels mn mx n)
  /\ Z.of_nat (List.length (evenLevels mn mx n)) = n.
Proof.
  intros Hmn Hmx Hlt Hn. split.
  - unfold TerrainRenderer.plannedLevels.
    rewrite (minHeightOf_isMinimum _ _ Hmn), (maxHeightOf_isMaximum _ _ Hmx).
    rewrite sub_Fin.
    assert (Hgt : gt (Fin (mx - mn)%Qc) (ofZ 0) = true).
    { unfold ofZ. rewrite gt_Fin. apply Qcltb_lt.
      now apply (proj1 (Qclt_minus_iff mn mx)). }
    rewrite Hgt. f_equal. unfold TerrainRenderer.contourLevelsOf, evenLevels.
    rewrite (for_pushes _ _
               (fun i => [Fin (mn + ofInt i / ofInt (n - 1) * (mx - mn))%Qc])).
    + cbn [app]. apply flat_map_single.
    + intros i levels _. unfold push. do 2 f_equal.
      unfold ofZ. rewrite div_Fin by (apply ofInt_nonzero; lia). reflexivity.
  - unfold evenLevels. rewrite length_map, counter_length. lia.
Qed.

Lemma scenarioGrid_minimum : Contract.isMinimum (data scenarioGrid) (qc 0 1).
Proof.
  split; [simpl; tauto |].
  intros v Hv; simpl in Hv; intuition (subst v; vm_compute; discriminate).
Qed.

Lemma scenarioGrid_maximum : Contract.isMaximum (data scenarioGrid) (qc 1 1).
Proof.
  split; [simpl; tauto |].
  intros v Hv; simpl in Hv; intuition (subst v; vm_compute; discriminate).
Qed.

Lemma plannedLevels_evenly_spaced_witness :
  TerrainRenderer.plannedLevels (data scenarioGrid) 3
  = Some (evenLevels (qc 0 1) (qc 1 1) 3)
  /\ Z.of_nat (List.length (evenLevels (qc 0 1) (qc 1 1) 3)) = 3.
Proof.
  apply (plannedLevels_evenly_spaced (data scenarioGrid) (qc 0 1) (qc 1 1) 3).
  - exact scenarioGrid_minimum.
  - exact scenarioGrid_maximum.
  - vm_compute; reflexivity.
  - lia.
Defined.

Example evenLevels_three :
  evenLevels (qc 0 1) (qc 1 1) 3 = [Fin (qc 0 1); Fin (qc 1 2); Fin (qc 1 1)].
Proof. qc_struct. Qed.

(** The level 0.5 of the 2x2 scenario collects one point only, and a level
    with a single point adds no line to the contour group. *)
Example scenario_single_point_draws_no_line :
  List.length (TerrainRenderer.contourPoints scenarioGrid defaultScale (Fin half))
  = 1%nat
  /\ TerrainRenderer.contourGroupOf scenarioGrid defaultScale [Fin half] = [].
Proof. split; vm_compute; reflexivity. Qed.

(** * Further properties of the contour scan *)

(** Order facts over [Qc] with subtraction, settled over [Q]. *)
Ltac qc_arith :=
  unfold Qcminus in *;
  unfold Qcle, Qclt, Qcmult, Qcplus, Qcopp, Q2Qc in *;
  cbn [this] in *; rewrite ?Qred_correct in *; (lra || nra).

(** ** Where the interpolated point lies *)






(** ** What every collected point satisfies *)

Lemma fold_left_Forall {A B : Type} (Q : B -> Prop) (body : A -> list B -> list B)
  (l : list A) (acc : list B) :
  (forall i acc', In i l -> Forall Q acc' -> Forall Q (body i acc')) ->
  Forall Q acc ->
  Forall Q (fold_left (fun acc' i => body i acc') l acc).
Proof.
  revert acc. induction l as [| i l IH]; intros acc Hbody Hacc; simpl.
  - exact Hacc.
  - apply IH; [intros; apply Hbody; [now right | assumption] |].
    apply Hbody; [now left | exact Hacc].
Qed.

Lemma fold_left_length_bound {A B : Type} (body : A -> list B -> list B)
  (c : nat) (l : list A) (acc : list B) :
  (forall i acc', (List.length (body i acc') <= List.length acc' + c)%nat) ->
  (List.length (fold_left (fun acc' i => body i acc') l acc)
   <= List.length acc + List.length l * c)%nat.
Proof.
  intros Hbody. revert acc. induction l as [| i l IH]; intros acc; simpl.
  - lia.
  - specialize (IH (body i acc)). specialize (Hbody i acc). lia.
Qed.

Lemma scanSample_level (hm : Heightmap) (scale : MapScale) (scaledLevel : num)
  (x y : Z) (points : list Vector3) :
  Forall (fun p => vy p = scaledLevel) points ->
  Forall (fun p => vy p = scaledLevel)
    (TerrainRenderer.scanSample hm scale scaledLevel x y points).
Proof.
  intros H. unfold TerrainRenderer.scanSample, push. cbv zeta.
  repeat match goal with
         | |- context [if ?c then _ else _] => destruct c
         end;
    repeat (apply Forall_app; split); try assumption;
    repeat constructor.
Qed.

Lemma scanSample_length (hm : Heightmap) (scale : MapScale) (scaledLevel : num)
  (x y : Z) (points : list Vector3) :
  (List.length (TerrainRenderer.scanSample hm scale scaledLevel x y points)
   <= List.length points + 2)%nat.
Proof.
  unfold TerrainRenderer.scanSample, push. cbv zeta.
  repeat match goal with
         | |- context [if ?c then _ else _] => destruct c
         end;
    rewrite ?length_app; simpl; lia.
Qed.

(** X5. For every grid, scale and level, whatever their values: each point
    collected for the level carries the scaled level as its height
    coordinate, and at most [2 * (width - 1) * (height - 1)] points are
    collected. *)
Theorem contourPoints_height_and_count
  (hm : Heightmap) (scale : MapScale) (level : num) :
  Forall (fun p => vy p = mul level (Fin (max_elevation_km scale)))
    (TerrainRenderer.contourPoints hm scale level)
  /\ Z.of_nat (List.length (TerrainRenderer.contourPoints hm scale level))
     <= 2 * Z.max 0 (width hm - 1) * Z.max 0 (height hm - 1).
Proof.
  unfold TerrainRenderer.contourPoints, for_. split.
  - apply fold_left_Forall; [| constructor].
    intros y points _ Hpoints. apply fold_left_Forall; [| exact Hpoints].
    intros x points' _ Hpoints'. now apply scanSample_level.
  - pose proof
      (fold_left_length_bound
         (fun y points =>
            fold_left
              (fun points' x =>
                 TerrainRenderer.scanSample hm scale
                   (mul level (Fin (max_elevation_km scale))) x y points')
              (counter (width hm - 1)) points)
         (Z.to_nat (width hm - 1) * 2)
         (counter (height hm - 1)) []) as Hbound.
    rewrite counter_length in Hbound. cbn [List.length] in Hbound.
    assert (Hinner : forall (y : Z) (points : list Vector3),
               (List.length
                  (fold_left
                     (fun points' x =>
                        TerrainRenderer.scanSample hm scale
                          (mul level (Fin (max_elevation_km scale))) x y points')
                     (counter (width hm - 1)) points)
                <= List.length points + Z.to_nat (width hm - 1) * 2)%nat).
    { intros y points.
      pose proof
        (fold_left_length_bound
           (fun x points' =>
              TerrainRenderer.scanSample hm scale
                (mul level (Fin (max_elevation_km scale))) x y points')
           2 (counter (width hm - 1)) points
           (fun x points' => scanSample_length hm scale _ x y points')) as H.
      now rewrite counter_length in H. }
    specialize (Hbound Hinner).
    apply Nat2Z.inj_le in Hbound. rewrite Nat2Z.inj_add, !Nat2Z.inj_mul in Hbound.
    assert (Ew : Z.of_nat (Z.to_nat (width hm - 1)) = Z.max 0 (width hm - 1)) by lia.
    assert (Eh : Z.of_nat (Z.to_nat (height hm - 1)) = Z.max 0 (height hm - 1)) by lia.
    rewrite Ew, Eh in Hbound.
    change (Z.of_nat 0) with 0 in Hbound. change (Z.of_nat 2) with 2 in Hbound.
    lia.
Qed.

(** ** The lines of the contour group *)

Lemma push_length {A : Type} (array : list A) (v : A) :
  List.length (push array v) = (List.length array + 1)%nat.
Proof. unfold push. rewrite length_app. reflexivity. Qed.

Lemma contourGroupOf_invariant (hm : Heightmap) (scale : MapScale)
  (all levels : list num) (group : list (list Vector3)) :
  (forall level, In level levels -> In level all) ->
  Forall (fun line =>
            (2 <= List.length line)%nat
            /\ exists level, In level all
                             /\ line = TerrainRenderer.contourPoints hm scale level)
    group ->
  let result :=
    fold_left
      (fun contourGroup level =>
         let points := TerrainRenderer.contourPoints hm scale level in
         if (1 <? Z.of_nat (List.length points)) then push contourGroup points
         else contourGroup)
      levels group in
  Forall (fun line =>
            (2 <= List.length line)%nat
            /\ exists level, In level all
                             /\ line = TerrainRenderer.contourPoints hm scale level)
    result
  /\ (List.length result <= List.length group + List.length levels)%nat.
Proof.
  revert group. induction levels as [| level levels IH]; intros group Hall Hgroup.
  - simpl. split; [exact Hgroup | lia].
  - cbn [fold_left]. cbv zeta.
    destruct (Z.ltb_spec 1
                (Z.of_nat (List.length (TerrainRenderer.contourPoints hm scale level))))
      as [Hlong | Hshort].
    + destruct (IH (push group (TerrainRenderer.contourPoints hm scale level)))
        as [Hlines Hcount].
      * intros l Hl. apply Hall. now right.
      * unfold push. apply Forall_app. split; [exact Hgroup |].
        constructor; [| constructor]. split; [lia |].
        exists level. split; [apply Hall; now left | reflexivity].
      * split; [exact Hlines |].
        rewrite push_length in Hcount. cbv zeta in Hcount. cbn [List.length]. lia.
    + destruct (IH group) as [Hlines Hcount].
      * intros l Hl. apply Hall. now right.
      * exact Hgroup.
      * split; [exact Hlines |]. cbv zeta in Hcount. cbn [List.length]. lia.
Qed.

Lemma contourLevelsOf_length (minHeight heightRange : num) (n : Z) :
  List.length (TerrainRenderer.contourLevelsOf minHeight heightRange n) = Z.to_nat n.
Proof.
  unfold TerrainRenderer.contourLevelsOf.
  rewrite (for_pushes _ _
             (fun i => [add minHeight
                          (mul (div (ofZ i) (ofZ (n - 1))) heightRange)]))
    by reflexivity.
  cbn [app]. now rewrite flat_map_single, length_map, counter_length.
Qed.

(** X6. [addContours] always returns normally; it changes no field of the
    renderer but [contours]; and when it stores a new contour group, every
    line of the group has at least two points, is the point list of one of
    the planned levels, and there are at most [contourLevels] lines. *)
Theorem addContours_frame_and_lines (r : TerrainRenderer.t) :
  exists r',
    TerrainRenderer.addContours r = Normal r'
    /\ TerrainRenderer.heightmap r' = TerrainRenderer.heightmap r
    /\ TerrainRenderer.mapScale r' = TerrainRenderer.mapScale r
    /\ TerrainRenderer.contourLevels r' = TerrainRenderer.contourLevels r
    /\ TerrainRenderer.resolution r' = TerrainRenderer.resolution r
    /\ (TerrainRenderer.contours r' = TerrainRenderer.contours r
        \/ exists hm levels group,
             TerrainRenderer.heightmap r = Some hm
             /\ TerrainRenderer.plannedLevels (data hm)
                  (TerrainRenderer.contourLevels r) = Some levels
             /\ TerrainRenderer.contours r' = Some group
             /\ Forall (fun line =>
                          (2 <= List.length line)%nat
                          /\ exists level,
                               In level levels
                               /\ line = TerrainRenderer.contourPoints hm
                                           (TerrainRenderer.mapScale r) level)
                  group
             /\ Z.of_nat (List.length group) <= TerrainRenderer.contourLevels r).
Proof.
  unfold TerrainRenderer.addContours.
  destruct (TerrainRenderer.heightmap r) as [hm |] eqn:Ehm;
    [| exists r; rewrite Ehm; tauto].
  destruct (Z.leb_spec (TerrainRenderer.contourLevels r) 0) as [Hn | Hn];
    [exists r; rewrite Ehm; tauto |].
  destruct (TerrainRenderer.plannedLevels (data hm) (TerrainRenderer.contourLevels r))
    as [levels |] eqn:Eplan; [| exists r; rewrite Ehm; tauto].
  pose proof (contourGroupOf_invariant hm (TerrainRenderer.mapScale r) levels levels []
                (fun l H => H) (Forall_nil _)) as [Hlines Hcount].
  cbv zeta in Hlines, Hcount. cbn [List.length] in Hcount.
  assert (Hlen : List.length levels = Z.to_nat (TerrainRenderer.contourLevels r)).
  { unfold TerrainRenderer.plannedLevels in Eplan.
    destruct (gt _ _); [| discriminate].
    injection Eplan as <-. apply contourLevelsOf_length. }
  exists (TerrainRenderer.setContours r
            (TerrainRenderer.contourGroupOf hm (TerrainRenderer.mapScale r) levels)).
  split; [reflexivity |]. cbn [TerrainRenderer.setContours TerrainRenderer.heightmap
    TerrainRenderer.mapScale TerrainRenderer.contourLevels TerrainRenderer.resolution
    TerrainRenderer.contours].
  rewrite Ehm. do 4 (split; [reflexivity |]).
  right. exists hm, levels,
    (TerrainRenderer.contourGroupOf hm (TerrainRenderer.mapScale r) levels).
  split; [reflexivity |]. split; [exact Eplan |]. split; [reflexivity |].
  split; [exact Hlines |].
  unfold TerrainRenderer.contourGroupOf. cbv zeta. lia.
Qed.

(** ** Points stay over the map *)


Lemma ofInt_lt (a b : Z) : a < b <-> (ofInt a < ofInt b)%Qc.
Proof.
  unfold ofInt, Qclt, Q2Qc. cbn [this]. rewrite !Qred_correct, <- Zlt_Qlt. reflexivity.
Qed.

Lemma ofInt_add (a b : Z) : ofInt (a + b) = (ofInt a + ofInt b)%Qc.
Proof.
  apply Qc_is_canon. unfold ofInt, Qcplus, Q2Qc. cbn [this].
  rewrite !Qred_correct, inject_Z_plus. reflexivity.
Qed.






(** ** The planned levels, from the minimum up to the maximum *)

Lemma plannedLevels_nonflat (d : list Qc) (mn mx : Qc) (n : Z) :
  Contract.isMinimum d mn ->
  Contract.isMaximum d mx ->
  (mn < mx)%Qc ->
  2 <= n ->
  TerrainRenderer.plannedLevels d n = Some (evenLevels mn mx n).
Proof.
  intros Hmn Hmx Hlt Hn. unfold TerrainRenderer.plannedLevels.
  rewrite (minHeightOf_isMinimum _ _ Hmn), (maxHeightOf_isMaximum _ _ Hmx).
  rewrite sub_Fin.
  assert (Hgt : gt (Fin (mx - mn)%Qc) (ofZ 0) = true).
  { unfold ofZ. rewrite gt_Fin. apply Qcltb_lt.
    now apply (proj1 (Qclt_minus_iff mn mx)). }
  rewrite Hgt. f_equal. unfold TerrainRenderer.contourLevelsOf, evenLevels.
  rewrite (for_pushes _ _
             (fun i => [Fin (mn + ofInt i / ofInt (n - 1) * (mx - mn))%Qc])).
  - cbn [app]. apply flat_map_single.
  - intros i levels _. unfold push. do 2 f_equal.
    unfold ofZ. rewrite div_Fin by (apply ofInt_nonzero; lia). reflexivity.
Qed.

Lemma evenLevels_nth (mn mx : Qc) (n i : Z) :
  0 <= i < n ->
  nth (Z.to_nat i) (evenLevels mn mx n) NaN
  = Fin (mn + ofInt i / ofInt (n - 1) * (mx - mn))%Qc.
Proof.
  intros Hi. unfold evenLevels.
  now rewrite (nth_map_counter
                 (fun i => Fin (mn + ofInt i / ofInt (n - 1) * (mx - mn))%Qc)).
Qed.

Lemma Qcdiv_lt_compat (a b c : Qc) :
  (0 < c)%Qc -> (a < b)%Qc -> (a / c < b / c)%Qc.
Proof.
  intros Hc Hab.
  assert (Hne : c <> Q2Qc 0) by (intros E; rewrite E in Hc; discriminate).
  destruct (Qclt_le_dec (a / c) (b / c)) as [H | H]; [exact H | exfalso].
  apply (Qcmult_le_compat_r _ _ c) in H; [| now apply Qclt_le_weak].
  assert (Ea : (a / c * c = a)%Qc) by (field; exact Hne).
  assert (Eb : (b / c * c = b)%Qc) by (field; exact Hne).
  rewrite Ea, Eb in H. exact (Qcle_not_lt _ _ H Hab).
Qed.

(** X8. On a grid whose minimum [mn] is below its maximum [mx], the [n >= 2]
    planned levels start at the minimum, end at the maximum, and increase
    strictly from one to the next. *)
Theorem plannedLevels_ascending (d : list Qc) (mn mx : Qc) (n : Z) :
  Contract.isMinimum d mn ->
  Contract.isMaximum d mx ->
  (mn < mx)%Qc ->
  2 <= n ->
  exists levels,
    TerrainRenderer.plannedLevels d n = Some levels
    /\ nth 0 levels NaN = Fin mn
    /\ nth (Z.to_nat (n - 1)) levels NaN = Fin mx
    /\ forall i j, 0 <= i -> i < j -> j < n ->
                   exists a b,
                     nth (Z.to_nat i) levels NaN = Fin a
                     /\ nth (Z.to_nat j) levels NaN = Fin b
                     /\ (a < b)%Qc.
Proof.
  intros Hmn Hmx Hlt Hn. exists (evenLevels mn mx n).
  split; [now apply plannedLevels_nonflat |].
  assert (Hden : (0 < ofInt (n - 1))%Qc)
    by (change 0%Qc with (ofInt 0); apply (proj1 (ofInt_lt _ _)); lia).
  assert (Hne : ofInt (n - 1) <> Q2Qc 0)
    by (intros E; rewrite E in Hden; discriminate).
  split; [| split].
  - change 0%nat with (Z.to_nat 0). rewrite evenLevels_nth by lia. f_equal.
    change (ofInt 0) with (Q2Qc 0). field. exact Hne.
  - rewrite evenLevels_nth by lia. f_equal. field. exact Hne.
  - intros i j Hi Hij Hj.
    exists (mn + ofInt i / ofInt (n - 1) * (mx - mn))%Qc,
           (mn + ofInt j / ofInt (n - 1) * (mx - mn))%Qc.
    rewrite !evenLevels_nth by lia. repeat split.
    pose proof (Qcdiv_lt_compat (ofInt i) (ofInt j) (ofInt (n - 1)) Hden
                  (proj1 (ofInt_lt i j) Hij)) as Hfrac.
    generalize dependent (ofInt i / ofInt (n - 1))%Qc. intros u.
    generalize dependent (ofInt j / ofInt (n - 1))%Qc. intros v Huv.
    qc_arith.
Qed.

Lemma plannedLevels_ascending_witness :
  exists levels,
    TerrainRenderer.plannedLevels (data scenarioGrid) 3 = Some levels
    /\ nth 0 levels NaN = Fin (qc 0 1)
    /\ nth (Z.to_nat (3 - 1)) levels NaN = Fin (qc 1 1)
    /\ forall i j, 0 <= i -> i < j -> j < 3 ->
                   exists a b,
                     nth (Z.to_nat i) levels NaN = Fin a
                     /\ nth (Z.to_nat j) levels NaN = Fin b
                     /\ (a < b)%Qc.
Proof.
  apply (plannedLevels_ascending (data scenarioGrid) (qc 0 1) (qc 1 1) 3).
  - exact scenarioGrid_minimum.
  - exact scenarioGrid_maximum.
  - vm_compute; reflexivity.
  - lia.
Defined.

(** X9. Under a non-negative elevation scale no edge crosses the level equal
    to the maximum of the grid, so that level collects no point; in
    particular the last of the [n >= 2] planned levels, which is the
    maximum, never collects a point. *)
Theorem top_level_collects_nothing
  (hm : Heightmap) (scale : MapScale) (mx : Qc) :
  Contract.isMaximum (data hm) mx ->
  (0 <= max_elevation_km scale)%Qc ->
  TerrainRenderer.contourPoints hm scale (Fin mx) = []
  /\ forall mn n,
       Contract.isMinimum (data hm) mn -> (mn < mx)%Qc -> 2 <= n ->
       exists levels,
         TerrainRenderer.plannedLevels (data hm) n = Some levels
         /\ TerrainRenderer.contourPoints hm scale
              (nth (Z.to_nat (n - 1)) levels NaN) = [].
Proof.
  intros Hmx Hscale.
  assert (Htop : TerrainRenderer.contourPoints hm scale (Fin mx) = []).
  { apply contourPoints_oneSided. left. intros v Hv. cbn [mul].
    rewrite gt_Fin. apply Qcltb_false.
    apply Qcle_mult_nonneg; [exact Hscale | now apply Hmx]. }
  split; [exact Htop |].
  intros mn n Hmn Hlt Hn. exists (evenLevels mn mx n).
  split; [now apply plannedLevels_nonflat |].
  assert (Hne : ofInt (n - 1) <> Q2Qc 0) by (apply ofInt_nonzero; lia).
  rewrite evenLevels_nth by lia.
  replace (mn + ofInt (n - 1) / ofInt (n - 1) * (mx - mn))%Qc with mx
    by (field; exact Hne).
  exact Htop.
Qed.

Lemma top_level_collects_nothing_witness :
  TerrainRenderer.contourPoints scenarioGrid defaultScale (Fin (qc 1 1)) = []
  /\ forall mn n,
       Contract.isMinimum (data scenarioGrid) mn -> (mn < qc 1 1)%Qc -> 2 <= n ->
       exists levels,
         TerrainRenderer.plannedLevels (data scenarioGrid) n = Some levels
         /\ TerrainRenderer.contourPoints scenarioGrid defaultScale
              (nth (Z.to_nat (n - 1)) levels NaN) = [].
Proof.
  apply (top_level_collects_nothing scenarioGrid defaultScale (qc 1 1)).
  - exact scenarioGrid_maximum.
  - vm_compute; discriminate.
Defined.

(** * The mesh heights of [renderTerrain] *)

Lemma setNthOf_length {A : Type} (array : list A) (i : nat) (v : A) :
  List.length (setNthOf array i v) = List.length array.
Proof.
  revert i. induction array as [| a array IH]; intros [| i]; simpl;
    try reflexivity. now rewrite IH.
Qed.

Lemma setNthOf_nth {A : Type} (array : list A) (i j : nat) (v d : A) :
  nth j (setNthOf array i v) d
  = if (j =? i)%nat && (i <? List.length array)%nat then v else nth j array d.
Proof.
  revert i j. induction array as [| a array IH]; intros i j.
  - simpl. rewrite andb_false_r. reflexivity.
  - destruct i as [| i], j as [| j]; simpl; try reflexivity.
    rewrite IH. reflexivity.
Qed.

Lemma setAtOf_length {A : Type} (array : list A) (i : Z) (v : A) :
  List.length (setAtOf array i v) = List.length array.
Proof.
  unfold setAtOf. destruct (i <? 0); [reflexivity | apply setNthOf_length].
Qed.

Lemma setAtOf_nth {A : Type} (array : list A) (i j : Z) (v d : A) :
  0 <= i -> 0 <= j ->
  nth (Z.to_nat j) (setAtOf array i v) d
  = if (j =? i) && (i <? Z.of_nat (List.length array)) then v
    else nth (Z.to_nat j) array d.
Proof.
  intros Hi Hj. unfold setAtOf.
  destruct (Z.ltb_spec i 0) as [Hneg | _]; [lia |].
  rewrite setNthOf_nth.
  destruct (Nat.eqb_spec (Z.to_nat j) (Z.to_nat i)) as [E | E];
    destruct (Z.eqb_spec j i) as [E' | E']; try lia;
    destruct (Nat.ltb_spec (Z.to_nat i) (List.length array)) as [L | L];
    destruct (Z.ltb_spec i (Z.of_nat (List.length array))) as [L' | L'];
    try lia; reflexivity.
Qed.

Section VertexHeights.

Variable hm : Heightmap.
Variable scale : MapScale.
Hypothesis width_pos : 0 < width hm.

(** The height written for vertex [i]. *)
Let heightOf (i : Z) : num :=
  mul (getData (data hm) i) (Fin (max_elevation_km scale)).

Let round (vertices : list num) (i : Z) : list num :=
  if i <? Z.of_nat (List.length (data hm))
  then setAtOf vertices (i * 3 + 2) (heightOf i)
  else vertices.

Lemma heightIndex_is_i (i : Z) :
  0 <= i -> i / width hm * width hm + Z.rem i (width hm) = i.
Proof.
  intros Hi. rewrite Z.rem_mod_nonneg by lia.
  pose proof (Z.div_mod i (width hm)). lia.
Qed.

Lemma setVertexHeights_rounds (vertices : list num) :
  setVertexHeights hm scale vertices
  = fold_left round (counter ((Z.of_nat (List.length vertices) + 2) / 3)) vertices.
Proof.
  unfold setVertexHeights, for_. apply fold_left_ext_in.
  intros acc i Hi. apply In_counter in Hi.
  destruct (Z.eqb_spec (width hm) 0) as [E | _]; [lia |].
  cbv zeta. rewrite heightIndex_is_i by lia. reflexivity.
Qed.

Lemma rounds_length (l : list Z) (vertices : list num) :
  List.length (fold_left round l vertices) = List.length vertices.
Proof.
  revert vertices. induction l as [| i l IH]; intros vertices; simpl;
    [reflexivity |].
  rewrite IH. unfold round.
  destruct (i <? _); [apply setAtOf_length | reflexivity].
Qed.

Lemma rounds_nth (k : nat) (vertices : list num) (j : Z) (d : num) :
  0 <= j ->
  nth (Z.to_nat j) (fold_left round (counter (Z.of_nat k)) vertices) d
  = if (j mod 3 =? 2) && (j / 3 <? Z.of_nat k)
       && (j / 3 <? Z.of_nat (List.length (data hm)))
       && (j <? Z.of_nat (List.length vertices))
    then heightOf (j / 3)
    else nth (Z.to_nat j) vertices d.
Proof.
  intros Hj. induction k as [| k IH].
  - change (counter (Z.of_nat 0)) with (@nil Z). cbn [fold_left].
    change (Z.of_nat 0) with 0.
    destruct (Z.ltb_spec (j / 3) 0) as [E | _];
      [pose proof (Z.div_pos j 3); lia |].
    now rewrite andb_false_r.
  - replace (Z.of_nat (S k)) with (Z.of_nat k + 1) by lia.
    rewrite counter_succ, fold_left_app by lia. cbn [fold_left].
    unfold round at 1.
    destruct (Z.ltb_spec (Z.of_nat k) (Z.of_nat (List.length (data hm))))
      as [Hin | Hout].
    + rewrite setAtOf_nth by lia. rewrite rounds_length, IH.
      destruct (Z.eqb_spec j (Z.of_nat k * 3 + 2)) as [Ej | Ej].
      * subst j.
        replace ((Z.of_nat k * 3 + 2) mod 3) with 2 by (apply Z.mod_unique with (Z.of_nat k); lia).
        replace ((Z.of_nat k * 3 + 2) / 3) with (Z.of_nat k) by (apply Z.div_unique with 2; lia).
        destruct (Z.ltb_spec (Z.of_nat k * 3 + 2) (Z.of_nat (List.length vertices)));
          cbn [andb Z.eqb];
          repeat match goal with
                 | |- context [?a <? ?b] => destruct (Z.ltb_spec a b); try lia
                 end; cbn [andb]; try reflexivity.
      * cbn [andb].
        assert (Hdiv : j mod 3 = 2 -> j / 3 <> Z.of_nat k).
        { intros Hm Hd. apply Ej. pose proof (Z.div_mod j 3). lia. }
        destruct (Z.eqb_spec (j mod 3) 2) as [Hm | Hm]; cbn [andb];
          [| reflexivity].
        specialize (Hdiv Hm).
        repeat match goal with
               | |- context [?a <? ?b] => destruct (Z.ltb_spec a b); try lia
               end; cbn [andb]; reflexivity.
    + rewrite IH.
      destruct (Z.eqb_spec (j mod 3) 2); cbn [andb]; [| reflexivity].
      repeat match goal with
             | |- context [?a <? ?b] => destruct (Z.ltb_spec a b); try lia
             end; cbn [andb]; reflexivity.
Qed.

End VertexHeights.

(** X10. On a grid of positive width and a position array of [n] vertices
    (three numbers each), [renderTerrain] keeps the length of the array and
    the first two coordinates of every vertex, and writes into the third
    coordinate of vertex [k] the sample [data[k]] times the elevation scale
    when [k] is an index of the grid data; a vertex without a sample keeps its
    third coordinate too. *)
Theorem setVertexHeights_row_major
  (hm : Heightmap) (scale : MapScale) (vertices : list num) (n k : Z) :
  0 < width hm ->
  Z.of_nat (List.length vertices) = 3 * n ->
  0 <= k < n ->
  List.length (setVertexHeights hm scale vertices) = List.length vertices
  /\ nth (Z.to_nat (3 * k)) (setVertexHeights hm scale vertices) NaN
     = nth (Z.to_nat (3 * k)) vertices NaN
  /\ nth (Z.to_nat (3 * k + 1)) (setVertexHeights hm scale vertices) NaN
     = nth (Z.to_nat (3 * k + 1)) vertices NaN
  /\ nth (Z.to_nat (3 * k + 2)) (setVertexHeights hm scale vertices) NaN
     = if k <? Z.of_nat (List.length (data hm))
       then Fin (nth (Z.to_nat k) (data hm) (Q2Qc 0) * max_elevation_km scale)%Qc
       else nth (Z.to_nat (3 * k + 2)) vertices NaN.
Proof.
  intros Hw Hlen Hk.
  rewrite (setVertexHeights_rounds hm scale Hw).
  replace ((Z.of_nat (List.length vertices) + 2) / 3) with n
    by (apply Z.div_unique with 2; lia).
  rewrite <- (Z2Nat.id n) by lia.
  split; [apply rounds_length |].
  rewrite !(rounds_nth hm scale) by lia.
  rewrite (Z2Nat.id n) by lia.
  replace ((3 * k) mod 3) with 0 by (apply Z.mod_unique with k; lia).
  replace ((3 * k + 1) mod 3) with 1 by (apply Z.mod_unique with k; lia).
  replace ((3 * k + 2) mod 3) with 2 by (apply Z.mod_unique with k; lia).
  replace ((3 * k + 2) / 3) with k by (apply Z.div_unique with 2; lia).
  cbn [Z.eqb andb]. repeat split.
  destruct (Z.ltb_spec k n) as [_ | ?]; [| lia].
  destruct (Z.ltb_spec k (Z.of_nat (List.length (data hm)))) as [Hin | Hout];
    cbn [andb]; [| reflexivity].
  destruct (Z.ltb_spec (3 * k + 2) (Z.of_nat (List.length vertices))) as [_ | ?];
    [| lia].
  now rewrite getData_in_range by lia.
Qed.

Lemma setVertexHeights_row_major_witness :
  List.length (setVertexHeights scenarioGrid defaultScale flatPlane)
  = List.length flatPlane
  /\ nth (Z.to_nat (3 * 1)) (setVertexHeights scenarioGrid defaultScale flatPlane) NaN
     = nth (Z.to_nat (3 * 1)) flatPlane NaN
  /\ nth (Z.to_nat (3 * 1 + 1)) (setVertexHeights scenarioGrid defaultScale flatPlane) NaN
     = nth (Z.to_nat (3 * 1 + 1)) flatPlane NaN
  /\ nth (Z.to_nat (3 * 1 + 2)) (setVertexHeights scenarioGrid defaultScale flatPlane) NaN
     = if 1 <? Z.of_nat (List.length (data scenarioGrid))
       then Fin (nth (Z.to_nat 1) (data scenarioGrid) (Q2Qc 0)
                 * max_elevation_km defaultScale)%Qc
       else nth (Z.to_nat (3 * 1 + 2)) flatPlane NaN.
Proof.
  apply (setVertexHeights_row_major scenarioGrid defaultScale flatPlane 4 1).
  - simpl; lia.
  - reflexivity.
  - lia.
Defined.

(** * Further properties of the generator *)

(** X11. For every [Math.sin] and every non-negative width and height, the
    generated grid records the width and height it was asked for and holds
    exactly [width * height] samples. *)
Theorem generateRandomHeightmap_grid (Math_sin : Qc -> Qc) (w h : Z) :
  0 <= w -> 0 <= h ->
  width (generateRandomHeightmap Math_sin w h) = w
  /\ height (generateRandomHeightmap Math_sin w h) = h
  /\ Z.of_nat (List.length (data (generateRandomHeightmap Math_sin w h)))
     = w * h.
Proof.
  intros Hw Hh. split; [reflexivity | split; [reflexivity |]].
  now apply generateRandomHeightmap_wellFormed.
Qed.

Lemma generateRandomHeightmap_grid_witness :
  width (generateRandomHeightmap (fun _ => Q2Qc 0) 3 2) = 3
  /\ height (generateRandomHeightmap (fun _ => Q2Qc 0) 3 2) = 2
  /\ Z.of_nat (List.length (data (generateRandomHeightmap (fun _ => Q2Qc 0) 3 2)))
     = 3 * 2.
Proof.
  apply (generateRandomHeightmap_grid (fun _ => Q2Qc 0) 3 2); lia.
Defined.

(** ** The gradient table is never left *)

(** X12. Whatever [Math.sin] returns, the gradient picked for a lattice
    point is one of the eight entries of [grad3]: the index
    [Math.abs(Math.floor(random * 8)) % 8] never leaves the table. *)
Theorem getGradient_in_table (Math_sin : Qc -> Qc) (ix iy : Z) :
  In (getGradient Math_sin ix iy) grad3.
Proof.
  unfold getGradient. cbv zeta. apply nth_In.
  change (List.length grad3) with 8%nat.
  match goal with
  | |- (Z.to_nat (Z.abs ?r mod 8) < 8)%nat =>
      pose proof (Z.mod_pos_bound (Z.abs r) 8 ltac:(lia))
  end.
  lia.
Qed.

(** ** Where the noise vanishes *)

Lemma Qfloor_between (q : Q) (i : Z) :
  (inject_Z i <= q)%Q -> (q < inject_Z (i + 1))%Q -> Qfloor q = i.
Proof.
  intros Hlo Hhi.
  pose proof (Qfloor_le q) as Hfl. pose proof (Qlt_floor q) as Hfu.
  assert (H1 : (inject_Z (Qfloor q) < inject_Z (i + 1))%Q)
    by (eapply Qle_lt_trans; eassumption).
  assert (H2 : (inject_Z i < inject_Z (Qfloor q + 1))%Q)
    by (eapply Qle_lt_trans; eassumption).
  rewrite <- Zlt_Qlt in H1, H2. lia.
Qed.

Lemma Math_floor_ofInt (i : Z) : Math_floor (ofInt i) = i.
Proof.
  unfold Math_floor, ofInt, Q2Qc. cbn [this]. apply Qfloor_between.
  - rewrite Qred_correct. apply Qle_refl.
  - rewrite Qred_correct, <- Zlt_Qlt. lia.
Qed.

Lemma Math_floor_ofInt_half (i : Z) : Math_floor (ofInt i + half) = i.
Proof.
  unfold Math_floor, ofInt, half, Qcplus, Q2Qc. cbn [this].
  apply Qfloor_between; rewrite !Qred_correct, ?inject_Z_plus.
  - lra.
  - change (inject_Z 1) with 1%Q. lra.
Qed.

(** Equations over [Qc] with rational constants, settled over [Q]. *)
Ltac qc_ring :=
  apply Qc_is_canon; unfold Qcminus;
  unfold Qcmult, Qcplus, Qcopp, Q2Qc; cbn [this];
  rewrite ?Qred_correct; ring.

Section Vanishing.

Variable Math_sin : Qc -> Qc.

Lemma simplex2D_at_node (i j : Z) :
  simplex2D Math_sin (ofInt i) (ofInt j) = ofInt 0.
Proof.
  rewrite (simplex2D_cell Math_sin _ _ i j)
    by apply Math_floor_ofInt.
  rewrite (contribution_node Math_sin i j) by reflexivity.
  rewrite !(contribution_far Math_sin).
  - apply Qc_is_canon. vm_compute. reflexivity.
  - rewrite !ofInt_add. change (ofInt 1) with 1%Qc. change (ofInt 0) with 0%Qc.
    unfold half. generalize (ofInt i) (ofInt j). intros a b. qc_arith.
  - rewrite !ofInt_add. change (ofInt 1) with 1%Qc. change (ofInt 0) with 0%Qc.
    unfold half. generalize (ofInt i) (ofInt j). intros a b. qc_arith.
  - rewrite !ofInt_add. change (ofInt 1) with 1%Qc. change (ofInt 0) with 0%Qc.
    unfold half. generalize (ofInt i) (ofInt j). intros a b. qc_arith.
Qed.

Lemma simplex2D_at_centre (i j : Z) :
  simplex2D Math_sin (ofInt i + half) (ofInt j + half) = ofInt 0.
Proof.
  rewrite (simplex2D_cell Math_sin _ _ i j)
    by apply Math_floor_ofInt_half.
  rewrite !(contribution_rim Math_sin).
  - apply Qc_is_canon. vm_compute. reflexivity.
  - rewrite !ofInt_add. change (ofInt 1) with 1%Qc. change (ofInt 0) with 0%Qc.
    unfold half. generalize (ofInt i) (ofInt j). intros a b. qc_ring.
  - rewrite !ofInt_add. change (ofInt 1) with 1%Qc. change (ofInt 0) with 0%Qc.
    unfold half. generalize (ofInt i) (ofInt j). intros a b. qc_ring.
  - rewrite !ofInt_add. change (ofInt 1) with 1%Qc. change (ofInt 0) with 0%Qc.
    unfold half. generalize (ofInt i) (ofInt j). intros a b. qc_ring.
  - change (ofInt 0) with 0%Qc.
    unfold half. generalize (ofInt i) (ofInt j). intros a b. qc_ring.
Qed.

End Vanishing.

(** X13. Whatever the gradients (for every [Math.sin]), the noise
    [simplex2D] is zero at every point with integer coordinates and at the
    centre of every lattice cell. *)
Theorem simplex2D_vanishes (Math_sin : Qc -> Qc) (i j : Z) :
  simplex2D Math_sin (ofInt i) (ofInt j) = Q2Qc 0
  /\ simplex2D Math_sin (ofInt i + half) (ofInt j + half) = Q2Qc 0.
Proof.
  split; [apply simplex2D_at_node | apply simplex2D_at_centre].
Qed.

Lemma octaves_origin (Math_sin : Qc -> Qc) (nx ny : Qc) :
  nx = Q2Qc 0 -> ny = Q2Qc 0 -> octaves Math_sin nx ny = Q2Qc 0.
Proof.
  intros -> ->. unfold octaves, for_.
  change (counter 6) with [0; 1; 2; 3; 4; 5]. cbn [fold_left].
  repeat match goal with
         | |- context [simplex2D Math_sin ?a ?b] =>
             replace a with (ofInt 0) by qc_eq;
             rewrite (simplex2D_at_node Math_sin 0 0)
         end.
  qc_eq.
Qed.

(** X14. Whatever [Math.sin] is, on a grid of even width and height the
    sample at the middle, [(width / 2, height / 2)], is exactly 0.5: all six
    octaves fall on the lattice point at the origin. *)
Theorem randomSample_centre (Math_sin : Qc -> Qc) (w h x y : Z) :
  0 < w -> 0 < h -> 2 * x = w -> 2 * y = h ->
  randomSample Math_sin w h x y = half
  /\ Contract.value (generateRandomHeightmap Math_sin w h) x y = half.
Proof.
  intros Hw Hh Hx Hy.
  assert (Efrac : forall a b, 0 < b -> 2 * a = b ->
                              (ofInt a / ofInt b - half)%Qc = Q2Qc 0).
  { intros a b Hb Hab. apply Qc_is_canon.
    unfold ofInt, half, Qcminus, Qcdiv, Qcplus, Qcmult, Qcopp, Qcinv, Q2Qc.
    cbn [this]. rewrite !Qred_correct.
    assert (Hb' : ~ inject_Z b == 0).
    { unfold Qeq, inject_Z. simpl. lia. }
    assert (Ha : inject_Z a == (1 # 2) * inject_Z b).
    { unfold Qeq, inject_Z, Qmult. cbn [Qnum Qden]. lia. }
    rewrite Ha. field. exact Hb'. }
  assert (Esample : randomSample Math_sin w h x y = half).
  { unfold randomSample. cbv zeta.
    rewrite octaves_origin by (apply Efrac; assumption). qc_eq. }
  split; [exact Esample |].
  rewrite generateRandomHeightmap_sample by lia. exact Esample.
Qed.

Lemma randomSample_centre_witness :
  randomSample (fun _ => Q2Qc 1) 256 256 128 128 = half
  /\ Contract.value (generateRandomHeightmap (fun _ => Q2Qc 1) 256 256) 128 128
     = half.
Proof.
  apply (randomSample_centre (fun _ => Q2Qc 1) 256 256 128 128); lia.
Defined.

(** * Further properties of the statistics *)



(** * The stored configuration *)

Section ConfigProofs.

Variable JSON_stringify : Config.json -> string.
Variable JSON_parse : string -> option Config.json.
Variable accepts : Config.Storage -> string -> string -> bool.

Lemma withItem_same (storage : Config.Storage) (key value : string) :
  Config.withItem storage key value key = Some value.
Proof. unfold Config.withItem. now rewrite String.eqb_refl. Qed.

Lemma withItem_other (storage : Config.Storage) (key value k : string) :
  k <> key -> Config.withItem storage key value k = storage k.
Proof.
  intros Hk. unfold Config.withItem.
  destruct (String.eqb_spec k key); [contradiction | reflexivity].
Qed.

Lemma parsedOr_round_trip (v value : Config.json) :
  JSON_parse (JSON_stringify v) = Some v ->
  JSON_stringify v <> ""%string ->
  Config.parsedOr JSON_parse (Some (JSON_stringify v)) value = v.
Proof.
  intros Hparse Hne. unfold Config.parsedOr.
  destruct (String.eqb_spec (JSON_stringify v) ""); [contradiction |].
  now rewrite Hparse.
Qed.

(** The outcomes of a save: nothing written, the schemes only, or both. *)
Lemma saveColorSchemes_cases
  (storage : Config.Storage) (colorSchemes mapScale : Config.json) :
  let result :=
    Config.saveColorSchemes JSON_stringify accepts storage colorSchemes mapScale in
  result = (storage, false)
  \/ result
     = (Config.withItem storage "colorSchemes" (JSON_stringify colorSchemes),
        false)
  \/ result
     = (Config.withItem
          (Config.withItem storage "colorSchemes" (JSON_stringify colorSchemes))
          "mapScale" (JSON_stringify mapScale),
        true).
Proof.
  unfold Config.saveColorSchemes, Config.setItem. cbv zeta.
  destruct (accepts storage _ _); [| now left].
  destruct (accepts _ _ _); [now right; right | now right; left].
Qed.

End ConfigProofs.

(** X16. Save, then load: when [saveColorSchemes] returns [true] and the two
    values survive [JSON.parse(JSON.stringify(v))] with a non-empty text,
    [loadColorSchemes] on the resulting storage returns exactly the saved
    colour schemes and map scale, and no other key of the storage has
    changed. *)
Theorem save_then_load
  (JSON_stringify : Config.json -> string)
  (JSON_parse : string -> option Config.json)
  (accepts : Config.Storage -> string -> string -> bool)
  (storage storage' : Config.Storage) (colorSchemes mapScale : Config.json) :
  JSON_parse (JSON_stringify colorSchemes) = Some colorSchemes ->
  JSON_parse (JSON_stringify mapScale) = Some mapScale ->
  JSON_stringify colorSchemes <> ""%string ->
  JSON_stringify mapScale <> ""%string ->
  Config.saveColorSchemes JSON_stringify accepts storage colorSchemes mapScale
  = (storage', true) ->
  Config.loadColorSchemes JSON_parse storage' = (colorSchemes, mapScale)
  /\ forall key, key <> "colorSchemes"%string -> key <> "mapScale"%string ->
                 Config.getItem storage' key = Config.getItem storage key.
Proof.
  intros Hcs Hms Hcs' Hms' Hsave.
  destruct (saveColorSchemes_cases JSON_stringify accepts storage colorSchemes mapScale)
    as [E | [E | E]]; cbv zeta in E; rewrite E in Hsave; try discriminate.
  injection Hsave as <-. split.
  - unfold Config.loadColorSchemes, Config.getItem. cbv zeta.
    rewrite withItem_other by discriminate.
    rewrite !withItem_same.
    now rewrite !parsedOr_round_trip.
  - intros key Hk1 Hk2. unfold Config.getItem.
    now rewrite !withItem_other.
Qed.

Lemma save_then_load_witness :
  Config.loadColorSchemes Config.toyParse
    (fst (Config.saveColorSchemes Config.toyStringify Config.toyAccepts
            Config.emptyStorage (Config.JString "schemes") (Config.JString "scale")))
  = (Config.JString "schemes", Config.JString "scale")
  /\ forall key, key <> "colorSchemes"%string -> key <> "mapScale"%string ->
                 Config.getItem
                   (fst (Config.saveColorSchemes Config.toyStringify
                           Config.toyAccepts Config.emptyStorage
                           (Config.JString "schemes") (Config.JString "scale")))
                   key
                 = Config.getItem Config.emptyStorage key.
Proof.
  apply (save_then_load Config.toyStringify Config.toyParse Config.toyAccepts
           Config.emptyStorage _ (Config.JString "schemes") (Config.JString "scale")).
  - reflexivity.
  - reflexivity.
  - discriminate.
  - discriminate.
  - reflexivity.
Defined.

(** X17. A save that returns [false] has written nothing or the colour
    schemes only, never the map scale: the stored map scale, and every key
    other than ["colorSchemes"], is as before, so a later load pairs the
    old map scale with either the old or the new colour schemes. *)
Theorem failed_save_keeps_map_scale
  (JSON_stringify : Config.json -> string)
  (JSON_parse : string -> option Config.json)
  (accepts : Config.Storage -> string -> string -> bool)
  (storage storage' : Config.Storage) (colorSchemes mapScale : Config.json) :
  Config.saveColorSchemes JSON_stringify accepts storage colorSchemes mapScale
  = (storage', false) ->
  (forall key, key <> "colorSchemes"%string ->
               Config.getItem storage' key = Config.getItem storage key)
  /\ snd (Config.loadColorSchemes JSON_parse storage')
     = snd (Config.loadColorSchemes JSON_parse storage)
  /\ (Config.getItem storage' "colorSchemes" = Config.getItem storage "colorSchemes"
      \/ Config.getItem storage' "colorSchemes"
         = Some (JSON_stringify colorSchemes)).
Proof.
  intros Hsave.
  destruct (saveColorSchemes_cases JSON_stringify accepts storage colorSchemes mapScale)
    as [E | [E | E]]; cbv zeta in E; rewrite E in Hsave; try discriminate;
    injection Hsave as <-.
  - repeat split; try reflexivity. now left.
  - unfold Config.loadColorSchemes, Config.getItem. cbv zeta. cbn [snd].
    split; [| split].
    + intros key Hk. now rewrite withItem_other.
    + now rewrite (withItem_other storage "colorSchemes" _ "mapScale")
        by discriminate.
    + right. apply withItem_same.
Qed.

Lemma failed_save_keeps_map_scale_witness :
  (forall key, key <> "colorSchemes"%string ->
               Config.getItem
                 (fst (Config.saveColorSchemes Config.toyStringify
                         Config.toyAccepts Config.emptyStorage
                         (Config.JString "schemes") (Config.JString "!scale")))
                 key
               = Config.getItem Config.emptyStorage key)
  /\ snd (Config.loadColorSchemes Config.toyParse
            (fst (Config.saveColorSchemes Config.toyStringify Config.toyAccepts
                    Config.emptyStorage (Config.JString "schemes")
                    (Config.JString "!scale"))))
     = snd (Config.loadColorSchemes Config.toyParse Config.emptyStorage)
  /\ (Config.getItem
        (fst (Config.saveColorSchemes Config.toyStringify Config.toyAccepts
                Config.emptyStorage (Config.JString "schemes")
                (Config.JString "!scale")))
        "colorSchemes"
      = Config.getItem Config.emptyStorage "colorSchemes"
      \/ Config.getItem
           (fst (Config.saveColorSchemes Config.toyStringify Config.toyAccepts
                   Config.emptyStorage (Config.JString "schemes")
                   (Config.JString "!scale")))
           "colorSchemes"
         = Some (Config.toyStringify (Config.JString "schemes"))).
Proof.
  apply (failed_save_keeps_map_scale Config.toyStringify Config.toyParse
           Config.toyAccepts Config.emptyStorage _
           (Config.JString "schemes") (Config.JString "!scale")).
  reflexivity.
Defined.

(** With nothing stored, or with a stored text that does not parse, the
    defaults are loaded. *)
Example loadColorSchemes_defaults :
  Config.loadColorSchemes Config.toyParse Config.emptyStorage
  = (Config.DEFAULT_COLOR_SCHEMES, Config.DEFAULT_MAP_SCALE)
  /\ Config.loadColorSchemes (fun _ => None)
       (Config.withItem Config.emptyStorage "colorSchemes" "{oops")
     = (Config.DEFAULT_COLOR_SCHEMES, Config.DEFAULT_MAP_SCALE).
Proof. split; reflexivity. Qed.

(** * A file that is only a header *)

(** X18. An R16 file of exactly 8 bytes whose header has [width * height = 0]
    is accepted: the reader resolves with a grid without samples.  On such a
    grid, under a positive elevation scale, [getTerrainInfo] reports
    [minElevation = Infinity], [maxElevation = -Infinity] and
    [elevationRange = -Infinity], and [addContours] plans no level. *)
Theorem header_only_file_gives_infinite_statistics
  (buffer : list byte) (scale : MapScale) :
  DataView.byteLength buffer = 8 ->
  R16.u32le buffer 0 * R16.u32le buffer 4 = 0 ->
  (0 < max_elevation_km scale)%Qc ->
  exists hm,
    readR16Heightmap buffer = Normal hm
    /\ data hm = []
    /\ (exists info,
           TerrainRenderer.getTerrainInfo (rendererOf hm scale) = Some info
           /\ TerrainRenderer.minElevation info = PInf
           /\ TerrainRenderer.maxElevation info = NInf
           /\ TerrainRenderer.elevationRange info = NInf)
    /\ TerrainRenderer.addContours (rendererOf hm scale)
       = Normal (rendererOf hm scale).
Proof.
  intros Hlen Hzero Hscale.
  exists (R16.decoded buffer).
  assert (Hdata : data (R16.decoded buffer) = []).
  { unfold R16.decoded. cbn [data]. now rewrite Hzero. }
  assert (Hsign : (max_elevation_km scale ?= 0)%Qc = Gt) by now apply Qcgt_alt.
  split; [| split; [exact Hdata | split]].
  - rewrite readR16Heightmap_decodes, Hlen, Hzero. reflexivity.
  - eexists. split; [reflexivity |].
    cbn [TerrainRenderer.minElevation TerrainRenderer.maxElevation
           TerrainRenderer.elevationRange TerrainRenderer.mapScale rendererOf].
    rewrite Hdata.
    cbn [TerrainRenderer.minHeightOf TerrainRenderer.maxHeightOf fold_left
           sub neg add mul].
    rewrite Hsign. repeat split.
  - unfold TerrainRenderer.addContours.
    cbn [TerrainRenderer.heightmap TerrainRenderer.contourLevels rendererOf].
    rewrite Hdata. reflexivity.
Qed.

Lemma header_only_file_gives_infinite_statistics_witness :
  exists hm,
    readR16Heightmap r16HeaderOnly = Normal hm
    /\ data hm = []
    /\ (exists info,
           TerrainRenderer.getTerrainInfo (rendererOf hm defaultScale) = Some info
           /\ TerrainRenderer.minElevation info = PInf
           /\ TerrainRenderer.maxElevation info = NInf
           /\ TerrainRenderer.elevationRange info = NInf)
    /\ TerrainRenderer.addContours (rendererOf hm defaultScale)
       = Normal (rendererOf hm defaultScale).
Proof.
  apply (header_only_file_gives_infinite_statistics r16HeaderOnly defaultScale).
  - reflexivity.
  - reflexivity.
  - vm_compute; reflexivity.
Defined.

(** * The code over binary64 *)

Import PrimFloat SpecFloat FloatOps.

(** ** Order and [NaN] *)





Lemma isNaN_leb_r (a b : float) : F64.isNaN b -> (a <=? b)%float = false.
Proof.
  unfold F64.isNaN. intros H. rewrite FloatAxioms.leb_spec, H.
  now destruct (Prim2SF a).
Qed.

Lemma isNaN_ltb_l (a b : float) : F64.isNaN a -> (a <? b)%float = false.
Proof.
  unfold F64.isNaN. intros H. rewrite FloatAxioms.ltb_spec, H. reflexivity.
Qed.


(** ** The order of doubles and the height scan *)











(** ** Rounding: what [binary_round_aux] computes *)




















(** ** Valid doubles *)







(** ** Rounded products keep the order *)









(** ** Scaled heights and the scanned minimum *)










(** ** Levels that no edge crosses, over doubles *)





Section F64NoCrossing.

Variable hm : F64.Heightmap.
Variable scale : F64.MapScale.
Variable scaledLevel : float.

Let h (i : Z) : float :=
  (F64.getData (F64.data hm) i * F64.max_elevation_km scale)%float.






End F64NoCrossing.





(** ** The scan of one level, over doubles *)

Section F64Scan.

Variable hm : F64.Heightmap.
Variable scale : F64.MapScale.
Variable level : float.

Let scaledLevel : float := (level * F64.max_elevation_km scale)%float.

Lemma F64_getData_value (x y : Z) :
  0 <= x -> 0 <= y -> 0 <= F64.width hm ->
  F64.getData (F64.data hm) (y * F64.width hm + x) = F64.value hm x y.
Proof.
  intros Hx Hy Hw. unfold F64.getData, F64.value.
  destruct (Z.ltb_spec (y * F64.width hm + x) 0) as [Hneg | _]; [nia | reflexivity].
Qed.

Lemma F64_crosses_crossing (h0 h1 : float) :
  F64.crosses h0 h1 scaledLevel = F64.crossing h0 h1 scaledLevel.
Proof.
  unfold F64.crosses, F64.crossing. f_equal. apply andb_comm.
Qed.

Lemma F64_scanSample_pushes (x y : Z) (points : list F64.Vector3) :
  0 <= x < F64.width hm - 1 -> 0 <= y < F64.height hm - 1 ->
  F64.scanSample hm scale scaledLevel x y points
  = points ++ map (F64.gridToWorld hm scale scaledLevel)
                  (F64.horizontalEdge (F64.scaledValue hm scale) scaledLevel x y
                   ++ F64.verticalEdge (F64.scaledValue hm scale) scaledLevel x y).
Proof.
  intros Hx Hy. unfold F64.scanSample.
  replace (y * F64.width hm + x + 1) with (y * F64.width hm + (x + 1)) by ring.
  replace (y * F64.width hm + x + F64.width hm)
    with ((y + 1) * F64.width hm + x) by ring.
  rewrite !F64_getData_value by lia.
  rewrite !F64_crosses_crossing.
  unfold F64.horizontalEdge, F64.verticalEdge, F64.scaledValue.
  destruct (F64.crossing _ _ scaledLevel); destruct (F64.crossing _ _ scaledLevel);
    unfold push; cbn [map app]; rewrite <- ?app_assoc, ?app_nil_r; reflexivity.
Qed.

Lemma F64_contourPoints_refines :
  F64.contourPoints hm scale level
  = map (F64.gridToWorld hm scale scaledLevel)
        (F64.crossingPoints (F64.scaledValue hm scale) scaledLevel
           (F64.width hm) (F64.height hm)).
Proof.
  unfold F64.contourPoints, F64.crossingPoints. fold scaledLevel.
  rewrite (for_pushes _ _
             (fun y =>
                flat_map
                  (fun x =>
                     map (F64.gridToWorld hm scale scaledLevel)
                       (F64.horizontalEdge (F64.scaledValue hm scale)
                          scaledLevel x y
                        ++ F64.verticalEdge (F64.scaledValue hm scale)
                             scaledLevel x y))
                  (counter (F64.width hm - 1)))).
  - cbn [app]. rewrite map_flat_map. apply flat_map_ext. intros y.
    now rewrite map_flat_map.
  - intros y points Hy. apply for_pushes.
    intros x points' Hx. now apply F64_scanSample_pushes.
Qed.

End F64Scan.

(** C1, as stated, fails over doubles on the 2x2 R16 file with the samples
    51, 87, 87 and 0, with 30 contour levels and a maximal elevation of
    0.33 km: level 17 of the plan lies strictly below the sample at (0, 0),
    so the edge test on the values and the level gives no point; but the
    scaled level and the scaled sample are the same double, and
    [addContours] collects two points. *)
Lemma unscaled_edge_test_counterexample :
  exists hm levels level,
    F64.readR16Heightmap r16Terrace = Normal hm
    /\ F64.plannedLevels (F64.data hm) 30 = Some levels
    /\ nth_error levels 17 = Some level
    /\ (level <? F64.value hm 0 0)%float = true
    /\ F64.crossingPoints (F64.value hm) level (F64.width hm) (F64.height hm)
       = []
    /\ List.length (F64.contourPoints hm F64.lowScale level) = 2%nat.
Proof.
  eexists. eexists. eexists.
  split; [vm_compute; reflexivity |].
  split; [vm_compute; reflexivity |].
  split; [vm_compute; reflexivity |].
  repeat split; vm_compute; reflexivity.
Qed.

(** C1, amended. For a grid with width and height at least 2, any scale
    and any level (doubles), the points [addContours] collects for the level
    are, in order, the row-major scan of the samples [(x, y)] with
    [x < width - 1] and [y < height - 1], testing the forward horizontal edge
    and then the forward vertical edge on the scaled heights
    [value * max_elevation_km]: an edge gives one point exactly when one
    scaled endpoint is [<=] the scaled level [level * max_elevation_km] and
    the other is [>] it, at the fraction [(sl - h0) / (h1 - h0)] of the edge
    computed on the scaled numbers; each point is stored at its scene
    position.  On the 2x2 grid [0.0, 1.0, 0.0, 1.0] with level 0.5 and the
    default scale the scan gives the one point [(0.5, 0)]. *)
Theorem contour_scan_scaled_contract
  (hm : F64.Heightmap) (scale : F64.MapScale) (level : float) :
  2 <= F64.width hm -> 2 <= F64.height hm ->
  F64.contourPoints hm scale level
  = map (F64.gridToWorld hm scale (level * F64.max_elevation_km scale)%float)
        (F64.crossingPoints (F64.scaledValue hm scale)
           (level * F64.max_elevation_km scale)%float
           (F64.width hm) (F64.height hm))
  /\ F64.crossingPoints (F64.scaledValue F64.scenarioGrid F64.defaultScale)
       (0.5 * F64.max_elevation_km F64.defaultScale)%float 2 2
     = [(0.5%float, 0%float)]
  /\ F64.contourPoints F64.scenarioGrid F64.defaultScale 0.5
     = [F64.gridToWorld F64.scenarioGrid F64.defaultScale
          (0.5 * F64.max_elevation_km F64.defaultScale)%float
          (0.5%float, 0%float)].
Proof.
  intros _ _. split; [| split].
  - apply F64_contourPoints_refines.
  - vm_compute. reflexivity.
  - vm_compute. reflexivity.
Qed.

Lemma contour_scan_scaled_contract_witness :
  F64.contourPoints F64.shelfGrid F64.steepScale F64.belowShelf
  = map (F64.gridToWorld F64.shelfGrid F64.steepScale
           (F64.belowShelf * F64.max_elevation_km F64.steepScale)%float)
        (F64.crossingPoints (F64.scaledValue F64.shelfGrid F64.steepScale)
           (F64.belowShelf * F64.max_elevation_km F64.steepScale)%float
           (F64.width F64.shelfGrid) (F64.height F64.shelfGrid))
  /\ F64.crossingPoints (F64.scaledValue F64.scenarioGrid F64.defaultScale)
       (0.5 * F64.max_elevation_km F64.defaultScale)%float 2 2
     = [(0.5%float, 0%float)]
  /\ F64.contourPoints F64.scenarioGrid F64.defaultScale 0.5
     = [F64.gridToWorld F64.scenarioGrid F64.defaultScale
          (0.5 * F64.max_elevation_km F64.defaultScale)%float
          (0.5%float, 0%float)].
Proof.
  apply (contour_scan_scaled_contract F64.shelfGrid F64.steepScale F64.belowShelf).
  - simpl; lia.
  - simpl; lia.
Defined.

(** ** The R16 reader and its binary32 samples *)

Lemma setNthOf_middle {A : Type} (done rest : list A) (old v : A) :
  setNthOf (done ++ old :: rest) (List.length done) v = done ++ v :: rest.
Proof.
  induction done as [| a done IH]; simpl; [reflexivity | now rewrite IH].
Qed.

(** A loop that stores [f i] at index [i] of a [Float32Array], round after
    round: the slots hold the binary32 roundings. *)
Lemma F64_fill_rounds (f : Z -> float) (m k : nat) :
  (k <= m)%nat ->
  fold_left (fun heightmap i => F64.setAt heightmap i (f i))
    (counter (Z.of_nat k)) (repeat zero m)
  = map (fun i => F64.fround (f i)) (counter (Z.of_nat k))
    ++ repeat zero (m - k).
Proof.
  induction k as [| k IH]; intros Hk.
  - simpl. now rewrite Nat.sub_0_r.
  - replace (Z.of_nat (S k)) with (Z.of_nat k + 1) by lia.
    rewrite counter_succ by lia.
    rewrite fold_left_app, IH by lia. cbn [fold_left].
    rewrite map_app, <- app_assoc. cbn [map app].
    unfold F64.setAt, setAtOf.
    destruct (Z.ltb_spec (Z.of_nat k) 0) as [Hneg | _]; [lia |].
    replace (m - k)%nat with (S (m - S k)) by lia. cbn [repeat].
    replace (Z.to_nat (Z.of_nat k))
      with (List.length (map (fun i => F64.fround (f i)) (counter (Z.of_nat k))))
      by (rewrite length_map, counter_length; lia).
    now rewrite setNthOf_middle.
Qed.

Lemma F64_fill (f : Z -> float) (n : Z) :
  0 <= n ->
  for_ n (fun i heightmap => F64.setAt heightmap i (f i))
    (repeat zero (Z.to_nat n))
  = map (fun i => F64.fround (f i)) (counter n).
Proof.
  intros Hn. unfold for_.
  pose proof (F64_fill_rounds f (Z.to_nat n) (Z.to_nat n) (Nat.le_refl _)) as H.
  rewrite Z2Nat.id in H by lia. rewrite H, Nat.sub_diag. cbn [repeat].
  now rewrite app_nil_r.
Qed.

Lemma F64_readR16Samples_rounds (buffer : list byte) (n : Z) (k : nat) :
  8 + n * 2 <= DataView.byteLength buffer ->
  (k <= Z.to_nat n)%nat ->
  fold_left
    (fun acc i =>
       match acc with
       | Throw e => Throw e
       | Normal heightmap =>
           match DataView.getUint16 buffer (8 + i * 2) with
           | Throw e => Throw e
           | Normal v =>
               Normal (F64.setAt heightmap i (F64.ofZ v / F64.ofZ 65535)%float)
           end
       end)
    (counter (Z.of_nat k)) (Normal (repeat zero (Z.to_nat n)))
  = Normal (map (F64.sample16 buffer) (counter (Z.of_nat k))
            ++ repeat zero (Z.to_nat n - k)).
Proof.
  intros Hlen. induction k as [| k IH]; intros Hk.
  - simpl. now rewrite Nat.sub_0_r.
  - replace (Z.of_nat (S k)) with (Z.of_nat k + 1) by lia.
    rewrite counter_succ by lia.
    rewrite fold_left_app, IH by lia. cbn [fold_left].
    rewrite getUint16_in_range by lia.
    rewrite map_app, <- app_assoc. cbn [map app]. f_equal.
    unfold F64.setAt, setAtOf.
    destruct (Z.ltb_spec (Z.of_nat k) 0) as [Hneg | _]; [lia |].
    replace (Z.to_nat n - k)%nat with (S (Z.to_nat n - S k)) by lia.
    cbn [repeat].
    replace (Z.to_nat (Z.of_nat k))
      with (List.length (map (F64.sample16 buffer) (counter (Z.of_nat k))))
      by (rewrite length_map, counter_length; lia).
    now rewrite setNthOf_middle.
Qed.

Lemma F64_readR16Samples_all (buffer : list byte) (n : Z) :
  0 <= n ->
  8 + n * 2 <= DataView.byteLength buffer ->
  F64.readR16Samples buffer (repeat zero (Z.to_nat n)) n
  = Normal (map (F64.sample16 buffer) (counter n)).
Proof.
  intros Hn Hlen. unfold F64.readR16Samples, for_.
  pose proof (F64_readR16Samples_rounds buffer n (Z.to_nat n) Hlen
                (Nat.le_refl _)) as H.
  rewrite Z2Nat.id in H by lia. rewrite H, Nat.sub_diag. cbn [repeat].
  now rewrite app_nil_r.
Qed.

Lemma F64_readR16Heightmap_decodes (buffer : list byte) :
  F64.readR16Heightmap buffer
  = if DataView.byteLength buffer <? 8
    then Throw ("Failed to parse R16 file: " ++ DataView.RangeError)
    else if DataView.byteLength buffer
            =? 8 + R16.u32le buffer 0 * R16.u32le buffer 4 * 2
         then Normal (F64.decoded buffer)
         else Throw "Invalid R16 file size".
Proof.
  unfold F64.readR16Heightmap.
  destruct (Z.ltb_spec (DataView.byteLength buffer) 8) as [Hshort | Hlong].
  - destruct (Z_lt_le_dec (DataView.byteLength buffer) 4) as [H4 | H4].
    + now rewrite getUint32_out_of_range by lia.
    + rewrite (getUint32_in_range buffer 0) by lia.
      now rewrite getUint32_out_of_range by lia.
  - rewrite !getUint32_in_range by lia.
    destruct (Z.eqb_spec (DataView.byteLength buffer)
                (8 + R16.u32le buffer 0 * R16.u32le buffer 4 * 2)) as [E | E];
      cbn [negb]; [| reflexivity].
    pose proof (u32le_nonneg buffer 0) as Hw.
    pose proof (u32le_nonneg buffer 4) as Hh.
    unfold F64.Float32Array.
    destruct (Z.ltb_spec (R16.u32le buffer 0 * R16.u32le buffer 4) 0)
      as [Hneg | Hpos]; [nia |].
    now rewrite F64_readR16Samples_all by lia.
Qed.

(** C9, as stated, fails on the 2x1 file with the samples 65535 and 32768:
    the second sample the reader stores is 0.50000762939453125, which is
    neither the double [32768 / 65535] nor the rational 32768/65535. *)
Lemma stored_sample_counterexample :
  exists hm q,
    F64.readR16Heightmap r16File = Normal hm
    /\ R16.u16le r16File (8 + 1 * 2) = 32768
    /\ nth 1 (F64.data hm) nan <> (F64.ofZ 32768 / F64.ofZ 65535)%float
    /\ F64.toQ (nth 1 (F64.data hm) nan) = Some q
    /\ ~ (q == 32768 # 65535)%Q.
Proof.
  eexists. eexists.
  split; [vm_compute; reflexivity |].
  split; [vm_compute; reflexivity |].
  split; [| split; [vm_compute; reflexivity |]].
  - intros E. apply (f_equal Prim2SF) in E. vm_compute in E.
    discriminate.
  - vm_compute. discriminate.
Qed.

(** C9, amended. For every byte buffer: a buffer shorter than the 8-byte
    header is a decode failure; otherwise width and height are the unsigned
    32-bit little-endian integers at bytes 0-3 and 4-7, the read fails
    ("Invalid R16 file size") whenever the byte length differs from
    [8 + width*height*2], and succeeds otherwise with [width*height]
    samples, sample [i] being the unsigned 16-bit little-endian integer at
    offset [8 + i*2] divided by 65535 in doubles and rounded to the nearest
    binary32, as the [Float32Array] stores it. *)
Theorem readR16Heightmap_binary32_contract (buffer : list byte) :
  F64.readR16Heightmap buffer
  = (if DataView.byteLength buffer <? 8
     then Throw ("Failed to parse R16 file: " ++ DataView.RangeError)
     else if DataView.byteLength buffer
             =? 8 + R16.u32le buffer 0 * R16.u32le buffer 4 * 2
          then Normal (F64.decoded buffer)
          else Throw "Invalid R16 file size")
  /\ (DataView.byteLength buffer
      <> 8 + R16.u32le buffer 0 * R16.u32le buffer 4 * 2 ->
      exists message, F64.readR16Heightmap buffer = Throw message)
  /\ (forall hm,
         F64.readR16Heightmap buffer = Normal hm ->
         F64.width hm = R16.u32le buffer 0
         /\ F64.height hm = R16.u32le buffer 4
         /\ DataView.byteLength buffer = 8 + F64.width hm * F64.height hm * 2
         /\ Z.of_nat (List.length (F64.data hm)) = F64.width hm * F64.height hm
         /\ forall i, 0 <= i < F64.width hm * F64.height hm ->
                      nth (Z.to_nat i) (F64.data hm) nan
                      = F64.fround
                          (F64.ofZ (R16.u16le buffer (8 + i * 2))
                           / F64.ofZ 65535)%float).
Proof.
  pose proof (F64_readR16Heightmap_decodes buffer) as Hread.
  split; [exact Hread | split].
  - intros Hsize. rewrite Hread.
    destruct (DataView.byteLength buffer <? 8); [eauto |].
    destruct (Z.eqb_spec (DataView.byteLength buffer)
                (8 + R16.u32le buffer 0 * R16.u32le buffer 4 * 2));
      [contradiction | eauto].
  - intros hm Hhm. rewrite Hread in Hhm.
    destruct (DataView.byteLength buffer <? 8); [discriminate |].
    destruct (Z.eqb_spec (DataView.byteLength buffer)
                (8 + R16.u32le buffer 0 * R16.u32le buffer 4 * 2)) as [E | E];
      [| discriminate].
    assert (Ehm : hm = F64.decoded buffer) by congruence. subst hm.
    unfold F64.decoded. cbn [F64.data F64.width F64.height].
    pose proof (u32le_nonneg buffer 0) as Hw.
    pose proof (u32le_nonneg buffer 4) as Hh.
    repeat split; try assumption.
    + rewrite length_map, counter_length. nia.
    + intros i Hi. now rewrite nth_map_counter.
Qed.

(** ** The PNG reader and its binary32 samples *)

Lemma F64_pixelByte_in_range (imageData : ImageData) (i : Z) :
  0 <= i < Z.of_nat (List.length (pixels imageData)) ->
  F64.pixelByte imageData i
  = F64.ofZ (byteValue (nth (Z.to_nat i) (pixels imageData) x00)).
Proof.
  intros Hi. unfold F64.pixelByte.
  destruct (Z.ltb_spec i 0) as [Hneg | _]; [lia |].
  destruct (nth_error (pixels imageData) (Z.to_nat i)) as [b |] eqn:E.
  - now rewrite (nth_error_nth _ _ _ E).
  - apply nth_error_None in E. lia.
Qed.

(** Every byte over 255, stored as a binary32, is a number of [[0, 1]]. *)
Lemma F64_byte_inUnit (b : byte) :
  F64.inUnit (F64.fround (F64.ofZ (byteValue b) / F64.ofZ 255)%float) = true.
Proof. destruct b; vm_compute; reflexivity. Qed.

(** X2. For image data of [width * height] RGBA pixels
    ([4 * width * height] bytes), [readPngHeightmap] resolves with a grid of
    the width and height of the canvas whose [width * height] samples are, in
    order, the red-channel byte of each pixel divided by 255 in doubles and
    rounded to the nearest binary32; every sample is a number of [[0, 1]]. *)
Theorem readPngHeightmap_red_channel (imageData : ImageData) :
  0 <= canvasWidth imageData -> 0 <= canvasHeight imageData ->
  Z.of_nat (List.length (pixels imageData))
  = 4 * (canvasWidth imageData * canvasHeight imageData) ->
  exists hm,
    F64.readPngHeightmap imageData = Normal hm
    /\ F64.width hm = canvasWidth imageData
    /\ F64.height hm = canvasHeight imageData
    /\ F64.data hm
       = map (F64.redSample imageData)
           (counter (canvasWidth imageData * canvasHeight imageData))
    /\ Z.of_nat (List.length (F64.data hm))
       = canvasWidth imageData * canvasHeight imageData
    /\ Forall (fun v => F64.inUnit v = true) (F64.data hm).
Proof.
  intros Hw Hh Hlen.
  set (n := canvasWidth imageData * canvasHeight imageData) in *.
  assert (Hn : 0 <= n) by (unfold n; nia).
  assert (Hdata :
    for_ n
      (fun i heightmap =>
         F64.setAt heightmap i
           (F64.pixelByte imageData (i * 4) / F64.ofZ 255)%float)
      (repeat zero (Z.to_nat n))
    = map (F64.redSample imageData) (counter n)).
  { unfold for_.
    rewrite (fold_left_ext_in _
               (fun heightmap i =>
                  F64.setAt heightmap i
                    (F64.ofZ (byteValue (nth (Z.to_nat (i * 4))
                                           (pixels imageData) x00))
                     / F64.ofZ 255)%float)).
    - apply (F64_fill
               (fun i => (F64.ofZ (byteValue (nth (Z.to_nat (i * 4))
                                                (pixels imageData) x00))
                          / F64.ofZ 255)%float) n Hn).
    - intros heightmap i Hi. apply In_counter in Hi.
      now rewrite F64_pixelByte_in_range by lia. }
  exists (F64.mkHeightmap (map (F64.redSample imageData) (counter n))
            (canvasWidth imageData) (canvasHeight imageData)).
  cbn [F64.data F64.width F64.height].
  split; [| split; [reflexivity | split; [reflexivity | split; [reflexivity | split]]]].
  - unfold F64.readPngHeightmap, F64.Float32Array. fold n.
    destruct (Z.ltb_spec n 0) as [Hneg | _]; [lia |].
    now rewrite Hdata.
  - rewrite length_map, counter_length. lia.
  - apply Forall_forall. intros v Hv. apply in_map_iff in Hv.
    destruct Hv as [i [<- _]]. apply F64_byte_inUnit.
Qed.

Lemma readPngHeightmap_red_channel_witness :
  exists hm,
    F64.readPngHeightmap twoPixels = Normal hm
    /\ F64.width hm = canvasWidth twoPixels
    /\ F64.height hm = canvasHeight twoPixels
    /\ F64.data hm
       = map (F64.redSample twoPixels)
           (counter (canvasWidth twoPixels * canvasHeight twoPixels))
    /\ Z.of_nat (List.length (F64.data hm))
       = canvasWidth twoPixels * canvasHeight twoPixels
    /\ Forall (fun v => F64.inUnit v = true) (F64.data hm).
Proof.
  apply (readPngHeightmap_red_channel twoPixels).
  - simpl; lia.
  - simpl; lia.
  - reflexivity.
Defined.

(** The mid-grey pixel of the 2x1 image is stored as 0.501960813999176. *)
Lemma readPngHeightmap_twoPixels :
  F64.readPngHeightmap twoPixels
  = Normal (F64.mkHeightmap [1; 0x1.010102p-1]%float 2 1).
Proof. vm_compute. reflexivity. Qed.
